(** * pngr / palinor: contrastive prompt datasets

    A shallow embedding of [pngr/create_dataset.py] (template loader,
    prompt pair generator, JSONL writer) and of the interactive helper
    [palinorShell] of [palinor/cli/cli.py], with the properties of the
    specification stated over it.

    Conventions.
    - A Python [str] is a Rocq [string]; each character stands for one
      code point below 256.
    - Values produced by [yaml.safe_load] and by list and dict displays
      are terms of [pyval]; a dict is an association list in insertion
      order.
    - A raised exception is the [Raise] branch of [result].
    - The file system is a finite map from paths (lists of components,
      root first) to nodes; the session registry is a finite map from
      names to datasets. *)

From Stdlib Require Import ZArith Ascii String List Lia.
From stdpp Require Import gmap strings list pretty.

Set Warnings "-register-all".
Local Open Scope Z_scope.

(** ** Strings *)

Module Str.

Lemma app_nil_l (s : string) : "" +:+ s = s.
Proof. reflexivity. Qed.

Lemma app_cons (c : ascii) (s t : string) : String c s +:+ t = String c (s +:+ t).
Proof. reflexivity. Qed.

Lemma app_nil_r (s : string) : s +:+ "" = s.
Proof. induction s as [|c s IH]; [reflexivity | now rewrite app_cons, IH]. Qed.

Lemma app_assoc (s t u : string) : (s +:+ t) +:+ u = s +:+ (t +:+ u).
Proof. induction s as [|c s IH]; [reflexivity | now rewrite !app_cons, IH]. Qed.

Lemma length_app (s t : string) :
  String.length (s +:+ t) = (String.length s + String.length t)%nat.
Proof. induction s as [|c s IH]; [reflexivity | rewrite app_cons; simpl; now rewrite IH]. Qed.

Lemma app_inv_head (s t u : string) : s +:+ t = s +:+ u -> t = u.
Proof. induction s as [|c s IH]; [trivial | rewrite !app_cons; intros [= H]; auto]. Qed.

(** Two concatenations that agree, with heads of the same length, agree
    on the heads. *)
Lemma app_eq_length (s1 s2 t1 t2 : string) :
  s1 +:+ t1 = s2 +:+ t2 -> String.length s1 = String.length s2 ->
  s1 = s2 /\ t1 = t2.
Proof.
  revert s2. induction s1 as [|c s1 IH]; intros [|d s2]; simpl; try discriminate.
  - auto.
  - rewrite !app_cons. intros [= -> H] [= L]. destruct (IH _ H L) as [-> ->]. auto.
Qed.

End Str.

(** A character put in front of the first component of a scan result. *)
Definition cons_fst {B} (c : ascii) (p : string * B) : string * B :=
  (String c (fst p), snd p).

(** ** Python values and exceptions *)

Inductive pyval : Type :=
| PNone
| PBool (b : bool)
| PInt (z : Z)
| PStr (s : string)
| PList (l : list pyval)
| PDict (d : list (pyval * pyval)).

Inductive exn : Type :=
| FileNotFoundError
| IsADirectoryError
| NotADirectoryError
| FileExistsError
| YAMLError
| KeyError (k : string)
| IndexError
| TypeError
| AttributeError (attr : string)
| ValueError (msg : string)
| SerializationError
| DelegateError.

Inductive result (A : Type) : Type :=
| Ok (a : A)
| Raise (e : exn).
Arguments Ok {A} a.
Arguments Raise {A} e.

Definition bind {A B} (r : result A) (k : A -> result B) : result B :=
  match r with
  | Ok a => k a
  | Raise e => Raise e
  end.

Notation "x <- r ;; k" := (bind r (fun x => k))
  (at level 100, r at next level, right associativity).

Definition raises {A} (r : result A) : Prop := exists e, r = Raise e.

Section MapM.
Context {A B : Type} (f : A -> result B).

(** A list comprehension whose body may raise. *)
Fixpoint mapM (l : list A) : result (list B) :=
  match l with
  | [] => Ok []
  | x :: l' =>
      y <- f x ;;
      ys <- mapM l' ;;
      Ok (y :: ys)
  end.
End MapM.

(** ** [str.format(identity=...)]

    The format-string scanner follows CPython's [MarkupIterator_next],
    [parse_field], [field_name_split] and [get_integer]
    (Objects/stringlib/unicode_format.h). *)

Record field := Field {
  field_name : string;
  conversion : option ascii;
  format_spec : string
}.

(** What lies outside the modelled part of the interpreter and of the
    libraries the program calls. *)
Class External := {
  (** the rendering of a replacement field on the keyword argument that
      uses more than the bare name: attribute or index accessors, a
      conversion, or a non-empty format spec. The interpreter may put
      the address of an object into such a rendering (a bound method, as
      in [{identity.upper}]): an instance stands for the renderings of
      one run, and what is to hold from run to run is stated for two
      instances. *)
  format_extended : string -> field -> result string;
  (** [yaml.safe_load] on the text of a file *)
  safe_load : string -> result pyval;
  (** [Path.home()] *)
  home : list string;
  (** [Path(__file__).parent.parent], the directory of the package *)
  package_dir : list string;
  (** the external manager's [train_vector], given the calls made so far *)
  manager_train_vector : list (string * pyval * pyval) -> string -> pyval -> pyval -> result unit
}.

Module Format.

Definition is_brace (c : ascii) : bool :=
  (c =? "{")%char || (c =? "}")%char.

(** How the scan of a field name stops. *)
Inductive name_end :=
| EndOfString
| UnexpectedBrace
| Stop (c : ascii) (rest : string).

(** The first loop of [parse_field]: the field name runs to the first of
    [}], [:] and [!]; after [[] everything up to the next []] is skipped
    over. *)
Fixpoint scan_field_name (in_bracket : bool) (s : string) : string * name_end :=
  match s with
  | EmptyString => (EmptyString, EndOfString)
  | String c r =>
      if in_bracket then cons_fst c (scan_field_name (negb (c =? "]")%char) r)
      else if (c =? "{")%char then (EmptyString, UnexpectedBrace)
      else if (c =? "[")%char then cons_fst c (scan_field_name true r)
      else if (c =? "}")%char || (c =? ":")%char || (c =? "!")%char
      then (EmptyString, Stop c r)
      else cons_fst c (scan_field_name false r)
  end.

(** The second loop of [parse_field]: the format spec runs to the brace
    that closes the field, nested braces counted; [count] is the number
    of braces still open. *)
Fixpoint scan_format_spec (count : nat) (s : string) : option (string * string) :=
  match s with
  | EmptyString => None
  | String c r =>
      if (c =? "{")%char then option_map (cons_fst c) (scan_format_spec (S count) r)
      else if (c =? "}")%char then
        match count with
        | 0%nat | 1%nat => Some (EmptyString, r)
        | S k => option_map (cons_fst c) (scan_format_spec k r)
        end
      else option_map (cons_fst c) (scan_format_spec count r)
  end.

Definition parse_format_spec (name : string) (conv : option ascii) (s : string)
  : result (field * string) :=
  match scan_format_spec 1 s with
  | Some (spec, rest) => Ok (Field name conv spec, rest)
  | None => Raise (ValueError "unmatched '{' in format spec")
  end.

(** What follows the [!] of a field: the conversion character, then the
    end of the field or a format spec. *)
Definition parse_conversion (name : string) (s : string) : result (field * string) :=
  match s with
  | EmptyString =>
      Raise (ValueError "end of string while looking for conversion specifier")
  | String conv EmptyString => parse_format_spec name (Some conv) EmptyString
  | String conv (String c rest) =>
      if (c =? "}")%char then Ok (Field name (Some conv) EmptyString, rest)
      else if (c =? ":")%char then parse_format_spec name (Some conv) rest
      else Raise (ValueError "expected ':' after conversion specifier")
  end.

(** [parse_field], entered just after the opening brace. *)
Definition parse_field (s : string) : result (field * string) :=
  match scan_field_name false s with
  | (_, EndOfString) => Raise (ValueError "expected '}' before end of string")
  | (_, UnexpectedBrace) => Raise (ValueError "unexpected '{' in field name")
  | (name, Stop c rest) =>
      if (c =? "!")%char then parse_conversion name rest
      else if (c =? ":")%char then parse_format_spec name None rest
      else Ok (Field name None EmptyString, rest)
  end.

(** One step of the markup iterator on a non-empty rest of the format
    string: the literal text, the replacement field that follows it (if
    any) and what is left. A doubled brace ends the literal, which then
    holds one brace and is followed by no field. *)
Fixpoint MarkupIterator_next (s : string) : result (string * option field * string) :=
  match s with
  | EmptyString => Ok (EmptyString, None, EmptyString)
  | String c r =>
      if is_brace c then
        match r with
        | EmptyString =>
            Raise (ValueError ("Single '" +:+ String c "' encountered in format string"))
        | String c' r' =>
            if (c =? c')%char then Ok (String c EmptyString, None, r')
            else if (c =? "}")%char then
              Raise (ValueError "Single '}' encountered in format string")
            else p <- parse_field r ;; Ok (EmptyString, Some (fst p), snd p)
        end
      else
        p <- MarkupIterator_next r ;;
        Ok (String c (fst (fst p)), snd (fst p), snd p)
  end.

(** [field_name_split]: the first part of a field name ends at the first
    [.] or [[]. *)
Fixpoint split_first (s : string) : string * string :=
  match s with
  | EmptyString => (EmptyString, EmptyString)
  | String c r =>
      if (c =? ".")%char || (c =? "[")%char then (EmptyString, s)
      else cons_fst c (split_first r)
  end.

Definition digit_value (c : ascii) : option Z :=
  let n := Z.of_nat (nat_of_ascii c) in
  if (48 <=? n) && (n <=? 57) then Some (n - 48) else None.

Definition PY_SSIZE_T_MAX : Z := 2 ^ 63 - 1.

Inductive integer :=
| NotAnInteger
| TooManyDigits
| Integer (i : Z).

(** [get_integer]: a string of decimal digits as an index; an empty
    string is not an integer. *)
Fixpoint get_integer_from (acc : Z) (s : string) : integer :=
  match s with
  | EmptyString => Integer acc
  | String c r =>
      match digit_value c with
      | None => NotAnInteger
      | Some d =>
          if (PY_SSIZE_T_MAX - d) / 10 <? acc then TooManyDigits
          else get_integer_from (acc * 10 + d) r
      end
  end.

Definition get_integer (s : string) : integer :=
  match s with
  | EmptyString => NotAnInteger
  | _ => get_integer_from 0 s
  end.

(** The field is the bare keyword: no accessor, no conversion and an
    empty format spec. *)
Definition is_bare (rest : string) (f : field) : bool :=
  match rest, conversion f, format_spec f with
  | EmptyString, None, EmptyString => true
  | _, _, _ => false
  end.

(** [output_markup] for a call with no positional argument and the one
    keyword argument [identity]. An empty or numeric first part asks for
    a positional argument, and there is none. *)
Definition output_markup `{External} (identity : string) (f : field) : result string :=
  let (first, rest) := split_first (field_name f) in
  match get_integer first with
  | TooManyDigits => Raise (ValueError "Too many decimal digits in format string")
  | Integer _ => Raise IndexError
  | NotAnInteger =>
      if String.eqb first EmptyString then Raise IndexError
      else if String.eqb first "identity" then
        if is_bare rest f then Ok identity else format_extended identity f
      else Raise (KeyError first)
  end.

(** [build_string]: literal text and rendered fields, left to right. Each
    step of the iterator consumes at least one character, so a budget of
    [String.length s] steps is never used up. *)
Fixpoint build_string `{External} (budget : nat) (identity : string) (s : string)
  : result string :=
  match s, budget with
  | EmptyString, _ => Ok EmptyString
  | _, O => Ok EmptyString
  | _, S budget' =>
      p <- MarkupIterator_next s ;;
      out <- match snd (fst p) with
             | Some f => output_markup identity f
             | None => Ok EmptyString
             end ;;
      tail <- build_string budget' identity (snd p) ;;
      Ok (fst (fst p) +:+ out +:+ tail)
  end.

(** [s.format(identity=identity)] *)
Definition format `{External} (s : string) (identity : string) : result string :=
  build_string (String.length s) identity s.

End Format.

(** ** Operations of Python on loaded values *)

Module Py.

(** [iter(v)], as driven to its end by a [for] loop: a list yields its
    elements, a str its characters, a dict its keys. *)
Definition iter (v : pyval) : result (list pyval) :=
  match v with
  | PList l => Ok l
  | PStr s => Ok (map (fun c => PStr (String c EmptyString)) (list_ascii_of_string s))
  | PDict d => Ok (map fst d)
  | _ => Raise TypeError
  end.

Fixpoint dict_get (d : list (pyval * pyval)) (key : string) : option pyval :=
  match d with
  | [] => None
  | (PStr k, v) :: d' => if String.eqb k key then Some v else dict_get d' key
  | _ :: d' => dict_get d' key
  end.

(** [v[key]] for a str [key]: only a dict can be subscripted by a str. *)
Definition getitem (v : pyval) (key : string) : result pyval :=
  match v with
  | PDict d =>
      match dict_get d key with
      | Some x => Ok x
      | None => Raise (KeyError key)
      end
  | _ => Raise TypeError
  end.

(** [l[i]] on a list, for a non-negative literal index. *)
Definition list_getitem (l : list pyval) (i : nat) : result pyval :=
  match nth_error l i with
  | Some x => Ok x
  | None => Raise IndexError
  end.

(** [v.name] for a name that is not an attribute of the built-in types:
    none of the values of [pyval] carries attributes set by the program. *)
Definition getattr (v : pyval) (name : string) : result pyval :=
  Raise (AttributeError name).

(** [v.format(identity=identity)]: a method of str only. *)
Definition format `{External} (v : pyval) (identity : string) : result string :=
  match v with
  | PStr s => Format.format s identity
  | _ => Raise (AttributeError "format")
  end.

End Py.

(** ** The file system *)

Inductive node :=
| Dir
| File (text : string).

Abbreviation path := (list string).
Abbreviation filesystem := (gmap (list string) node).

Module Fs.

Definition parent (p : path) : path := removelast p.

Definition is_file (fs : filesystem) (p : path) : bool :=
  match fs !! p with
  | Some (File _) => true
  | _ => false
  end.

(** One of the paths above [p] is a regular file: the walk down to [p]
    cannot pass it. *)
Definition through_file (fs : filesystem) (p : path) : bool :=
  existsb (fun n => is_file fs (take n p)) (seq 0 (length p)).

(** What [open] raises on a path that does not exist: the walk down
    stops at a regular file, or at a name that is not there. *)
Definition absent (fs : filesystem) (p : path) : exn :=
  if through_file fs p then NotADirectoryError else FileNotFoundError.

(** [open(p, "r")] and reading the file to its end. *)
Definition read (fs : filesystem) (p : path) : result string :=
  match fs !! p with
  | Some (File text) => Ok text
  | Some Dir => Raise IsADirectoryError
  | None => Raise (absent fs p)
  end.

(** [open(p, "w")]: the file is created, or truncated when it exists;
    the directory that holds it has to exist. *)
Definition open_w (fs : filesystem) (p : path) : result filesystem :=
  match fs !! p with
  | Some Dir => Raise IsADirectoryError
  | Some (File _) => Ok (<[p := File EmptyString]> fs)
  | None =>
      match fs !! parent p with
      | Some Dir => Ok (<[p := File EmptyString]> fs)
      | Some (File _) => Raise NotADirectoryError
      | None => Raise (absent fs p)
      end
  end.

(** [f.write(text)] on a file opened for writing. *)
Definition write (fs : filesystem) (p : path) (text : string) : filesystem :=
  match fs !! p with
  | Some (File old) => <[p := File (old +:+ text)]> fs
  | _ => fs
  end.

(** [os.mkdir(p)] *)
Definition os_mkdir (fs : filesystem) (p : path) : result filesystem :=
  match fs !! p with
  | Some _ => Raise FileExistsError
  | None =>
      match fs !! parent p with
      | Some Dir => Ok (<[p := Dir]> fs)
      | Some (File _) => Raise NotADirectoryError
      | None => Raise (absent fs p)
      end
  end.

Definition is_dir (fs : filesystem) (p : path) : bool :=
  match fs !! p with
  | Some Dir => true
  | _ => false
  end.

(** [Path.mkdir(parents, exist_ok=True)] of pathlib: a missing parent is
    made first when [parents] is set; an existing directory is accepted.
    The recursion climbs one component per call, [depth] bounds it. *)
Fixpoint mkdir (depth : nat) (parents : bool) (fs : filesystem) (p : path)
  : result filesystem :=
  match os_mkdir fs p with
  | Ok fs' => Ok fs'
  | Raise FileNotFoundError =>
      match depth, p with
      | S depth', _ :: _ =>
          if parents then
            fs1 <- mkdir depth' true fs (parent p) ;;
            mkdir depth' false fs1 p
          else Raise FileNotFoundError
      | _, _ => Raise FileNotFoundError
      end
  | Raise e => if is_dir fs p then Ok fs else Raise e
  end.

(** [p.mkdir(parents=True, exist_ok=True)] *)
Definition mkdir_parents (fs : filesystem) (p : path) : result filesystem :=
  mkdir (S (length p)) true fs p.

(** [str(p)] *)
Definition str (p : path) : string := "/" +:+ String.concat "/" p.

(** The parts of a str between its slashes. *)
Fixpoint parts (s : string) : list string :=
  match s with
  | EmptyString => [EmptyString]
  | String c r =>
      if (c =? "/")%char then EmptyString :: parts r
      else match parts r with
           | [] => [String c EmptyString]
           | part :: more => String c part :: more
           end
  end.

(** A part that pathlib keeps: not empty and not a single dot. *)
Definition named (part : string) : bool :=
  negb (String.eqb part EmptyString || String.eqb part ".").

(** [p / s] of pathlib: the str is cut at its slashes, empty parts and
    single dots are dropped, and a str that starts with a slash takes
    the place of [p]. A part of two dots is kept as it is. *)
Definition joinpath (p : path) (s : string) : path :=
  match s with
  | String "/" _ => List.filter named (parts s)
  | _ => p ++ List.filter named (parts s)
  end.

(** A str that can be one name in a directory: no slash in it, and no
    NUL, which [open] refuses. *)
Fixpoint component (s : string) : bool :=
  match s with
  | EmptyString => true
  | String c r => negb ((c =? "/")%char || (c =? "000")%char) && component r
  end.

(** [p] can be opened for writing: it is a file, or it does not exist
    and the directory that is to hold it does. *)
Definition writable (fs : filesystem) (p : path) : Prop :=
  (exists old, fs !! p = Some (File old))
  \/ (fs !! p = None /\ fs !! parent p = Some Dir).


End Fs.

(** ** create_dataset.py *)

(** [load_yaml_template] *)
Definition load_yaml_template `{External} (fs : filesystem) (file_path : path)
  : result pyval :=
  text <- Fs.read fs file_path ;;
  safe_load text.

Definition message (role : string) (content : pyval) : pyval :=
  PDict [(PStr "role", PStr role); (PStr "content", content)].

(** The dict appended for one user prompt. *)
Definition entry (system1 system2 : string) (user_prompt : pyval) : pyval :=
  PDict [(PStr "a", PList [message "system" (PStr system1); message "user" user_prompt]);
         (PStr "b", PList [message "system" (PStr system2); message "user" user_prompt])].

(** The body of the loop over the templates: what one template appends
    to [prompts]. *)
Definition expand_template `{External} (a_adjective b_adjective : string)
  (template : pyval) : result (list pyval) :=
  system_template <- Py.getitem template "system_template" ;;
  user_prompts <- Py.getitem template "prompts" ;;
  system1 <- Py.format system_template a_adjective ;;
  system2 <- Py.format system_template b_adjective ;;
  user_prompts <- Py.iter user_prompts ;;
  Ok (map (entry system1 system2) user_prompts).

Fixpoint for_templates `{External} (a_adjective b_adjective : string)
  (templates : list pyval) (prompts : list pyval) : result (list pyval) :=
  match templates with
  | [] => Ok prompts
  | template :: templates' =>
      es <- expand_template a_adjective b_adjective template ;;
      for_templates a_adjective b_adjective templates' (prompts ++ es)
  end.

(** The generator on templates that are already loaded. *)
Definition generate `{External} (templates : pyval) (a_adjective b_adjective : string)
  : result (list pyval) :=
  templates <- Py.iter templates ;;
  for_templates a_adjective b_adjective templates [].

(** [create_personality_prompts] *)
Definition create_personality_prompts `{External} (fs : filesystem)
  (template_path : path) (a_adjective b_adjective : string) : result (list pyval) :=
  templates <- load_yaml_template fs template_path ;;
  generate templates a_adjective b_adjective.

(** ** [json.dumps] with its default arguments *)

Module Json.

Definition dquote : ascii := ascii_of_nat 34.
Definition backslash : ascii := ascii_of_nat 92.
Definition newline : ascii := ascii_of_nat 10.

Definition hex_digit (n : nat) : ascii :=
  nth n (list_ascii_of_string "0123456789abcdef") "0"%char.

(** One character under [ensure_ascii]: the printable ASCII characters
    other than the quote and the backslash stand for themselves, the
    rest is escaped. *)
Definition escape (c : ascii) : string :=
  let n := nat_of_ascii c in
  if (n =? 34)%nat then String backslash (String dquote EmptyString)
  else if (n =? 92)%nat then String backslash (String backslash EmptyString)
  else if (n =? 10)%nat then String backslash "n"
  else if (n =? 13)%nat then String backslash "r"
  else if (n =? 9)%nat then String backslash "t"
  else if (n =? 8)%nat then String backslash "b"
  else if (n =? 12)%nat then String backslash "f"
  else if ((32 <=? n) && (n <=? 126))%nat then String c EmptyString
  else String backslash
         (String "u" (String "0" (String "0"
           (String (hex_digit (n / 16)) (String (hex_digit (n mod 16)) EmptyString))))).

Fixpoint escape_all (s : string) : string :=
  match s with
  | EmptyString => EmptyString
  | String c r => escape c +:+ escape_all r
  end.

(** [encode_basestring_ascii] *)
Definition encode_basestring_ascii (s : string) : string :=
  String dquote (escape_all s +:+ String dquote EmptyString).

(** The text of a dict key: a str as it is, the other scalar keys as
    their JSON text; no other key is accepted. *)
Definition key_text (k : pyval) : result string :=
  match k with
  | PStr s => Ok s
  | PBool true => Ok "true"
  | PBool false => Ok "false"
  | PInt z => Ok (pretty z)
  | PNone => Ok "null"
  | _ => Raise TypeError
  end.

(** [json.dumps(v)]. The limits of the interpreter (the depth of
    the nesting it follows, the number of digits of an int it turns into
    text) are not part of it: what is stated of [dumps] is stated of the
    values it returns on, or of entries, which stay far below them. *)
Fixpoint dumps (v : pyval) : result string :=
  match v with
  | PNone => Ok "null"
  | PBool true => Ok "true"
  | PBool false => Ok "false"
  | PInt z => Ok (pretty z)
  | PStr s => Ok (encode_basestring_ascii s)
  | PList l =>
      items <- mapM dumps l ;;
      Ok ("[" +:+ String.concat ", " items +:+ "]")
  | PDict d =>
      items <- mapM (fun kx =>
                       key <- key_text (fst kx) ;;
                       s <- dumps (snd kx) ;;
                       Ok (encode_basestring_ascii key +:+ ": " +:+ s)) d ;;
      Ok ("{" +:+ String.concat ", " items +:+ "}")
  end.

End Json.

(** [save_prompts]: the loop that writes one line per prompt. A prompt
    that cannot be dumped ends the loop with the lines written so far
    left in the file. *)
Fixpoint write_prompts (fs : filesystem) (output_file : path) (prompts : list pyval)
  : filesystem * result unit :=
  match prompts with
  | [] => (fs, Ok tt)
  | prompt :: prompts' =>
      match Json.dumps prompt with
      | Ok line =>
          write_prompts (Fs.write fs output_file (line +:+ String Json.newline EmptyString))
            output_file prompts'
      | Raise e => (fs, Raise e)
      end
  end.

(** [save_prompts] *)
Definition save_prompts (fs : filesystem) (prompts : list pyval) (output_file : path)
  : filesystem * result unit :=
  match Fs.open_w fs output_file with
  | Ok fs0 => write_prompts fs0 output_file prompts
  | Raise e => (fs, Raise e)
  end.

(** ** cli.py: the interactive helper *)

(** What the session acts on besides its own fields: the files and the
    lines printed on the console. *)
Record world := World {
  files : gmap (list string) node;
  console : list string
}.

(** [palinorShell]: the manager, seen through the calls it received, and
    the registry of created datasets. *)
Record palinorShell := Shell {
  manager : list (string * pyval * pyval);
  datasets : gmap string (list pyval)
}.

(** [palinorShell.__init__] *)
Definition init : palinorShell := Shell [] ∅.

Definition default_template `{External} : path :=
  package_dir ++ ["dataset_templates"; "alphapenger.yaml"]%string.

Definition datasets_dir `{External} : path := home ++ [".palinor"; "datasets"]%string.

(** [datasets_dir / f"{name}.jsonl"] *)
Definition output_path `{External} (name : string) : path :=
  Fs.joinpath datasets_dir (name +:+ ".jsonl").

(** [palinorShell.create_dataset] *)
Definition create_dataset `{External} (w : world) (self : palinorShell)
  (name a_trait b_trait : string) (template_path : option path)
  : world * palinorShell * result unit :=
  let template_path :=
    match template_path with
    | Some p => p
    | None => default_template
    end in
  match create_personality_prompts (files w) template_path a_trait b_trait with
  | Raise e => (w, self, Raise e)
  | Ok prompts =>
      match Fs.mkdir_parents (files w) datasets_dir with
      | Raise e => (w, self, Raise e)
      | Ok fs1 =>
          match save_prompts fs1 prompts (output_path name) with
          | (fs2, Raise e) => (World fs2 (console w), self, Raise e)
          | (fs2, Ok _) =>
              (World fs2
                 (console w ++
                    ["[green]Created dataset '" +:+ name +:+ "' with "
                       +:+ pretty (length prompts) +:+ " prompts[/green]";
                     "[green]Saved to " +:+ Fs.str (output_path name) +:+ "[/green]"]),
               Shell (manager self) (<[name := prompts]> (datasets self)),
               Ok tt)
          end
      end
  end.

(** The arguments of the manager call, evaluated left to right. *)
Definition first_traits (dataset : list pyval) : result (pyval * pyval) :=
  e <- Py.list_getitem dataset 0 ;;
  a_trait <- Py.getattr e "a_trait" ;;
  e <- Py.list_getitem dataset 0 ;;
  b_trait <- Py.getattr e "b_trait" ;;
  Ok (a_trait, b_trait).

(** [palinorShell.train_vector]; the status line shown while the manager
    works leaves nothing behind and is not kept. *)
Definition train_vector `{External} (w : world) (self : palinorShell)
  (name dataset_name : string) : world * palinorShell * result unit :=
  match datasets self !! dataset_name with
  | None =>
      (World (files w)
         (console w ++ ["[red]Dataset '" +:+ dataset_name +:+ "' not found[/red]"]),
       self, Ok tt)
  | Some dataset =>
      match first_traits dataset with
      | Raise e => (w, self, Raise e)
      | Ok (a_trait, b_trait) =>
          let self' := Shell (manager self ++ [(name, a_trait, b_trait)]) (datasets self) in
          match manager_train_vector (manager self) name a_trait b_trait with
          | Raise e => (w, self', Raise e)
          | Ok _ =>
              (World (files w)
                 (console w ++ ["[green]Vector " +:+ name +:+ " trained and saved![/green]"]),
               self', Ok tt)
          end
      end
  end.

(** ** The data model of the specification *)

Record TemplateRecord := {
  system_template : string;
  prompts : list string
}.

(** A template record as [yaml.safe_load] hands it over. *)
Definition py_of_record (t : TemplateRecord) : pyval :=
  PDict [(PStr "system_template", PStr (system_template t));
         (PStr "prompts", PList (map PStr (prompts t)))].

Definition py_of_records (ts : list TemplateRecord) : pyval :=
  PList (map py_of_record ts).

Record Message := {
  role : string;
  content : string
}.

Record DatasetEntry := {
  a : list Message;
  b : list Message
}.

Definition py_of_message (m : Message) : pyval :=
  message (role m) (PStr (content m)).

Definition py_of_entry (e : DatasetEntry) : pyval :=
  PDict [(PStr "a", PList (map py_of_message (a e)));
         (PStr "b", PList (map py_of_message (b e)))].

(** [e[side][i]["content"]] on an entry whose sides are lists. *)
Definition content_at (e : pyval) (side : string) (i : nat) : result pyval :=
  msgs <- Py.getitem e side ;;
  m <- match msgs with
       | PList l => Py.list_getitem l i
       | _ => Raise TypeError
       end ;;
  Py.getitem m "content".

(** ** Reading a dataset file back *)

Module Load.

Import Json.

Definition is_ws (c : ascii) : bool :=
  let n := nat_of_ascii c in
  ((n =? 32) || (n =? 9) || (n =? 10) || (n =? 13))%nat.

Fixpoint skip_ws (s : string) : string :=
  match s with
  | EmptyString => EmptyString
  | String c r => if is_ws c then skip_ws r else s
  end.

Definition hex_value (c : ascii) : option nat :=
  let n := nat_of_ascii c in
  if ((48 <=? n) && (n <=? 57))%nat then Some (n - 48)%nat
  else if ((97 <=? n) && (n <=? 102))%nat then Some (n - 87)%nat
  else if ((65 <=? n) && (n <=? 70))%nat then Some (n - 55)%nat
  else None.

Definition hex4 (h1 h2 h3 h4 : ascii) : option nat :=
  match hex_value h1, hex_value h2, hex_value h3, hex_value h4 with
  | Some d1, Some d2, Some d3, Some d4 => Some (((d1 * 16 + d2) * 16 + d3) * 16 + d4)%nat
  | _, _, _, _ => None
  end.

(** The character a two-character escape stands for. *)
Definition unescape (e : ascii) : option ascii :=
  let n := nat_of_ascii e in
  if (n =? 34)%nat then Some dquote
  else if (n =? 92)%nat then Some backslash
  else if (n =? 47)%nat then Some "/"%char
  else if (n =? 110)%nat then Some newline
  else if (n =? 114)%nat then Some (ascii_of_nat 13)
  else if (n =? 116)%nat then Some (ascii_of_nat 9)
  else if (n =? 98)%nat then Some (ascii_of_nat 8)
  else if (n =? 102)%nat then Some (ascii_of_nat 12)
  else None.

(** A JSON string, entered after its opening quote: the decoded text and
    what follows the closing quote. Code points from 256 on are outside
    the strings modelled here. *)
Fixpoint parse_string (s : string) : option (string * string) :=
  match s with
  | EmptyString => None
  | String c r =>
      if Ascii.eqb c dquote then Some (EmptyString, r)
      else if Ascii.eqb c backslash then
        match r with
        | EmptyString => None
        | String e r' =>
            if Ascii.eqb e "u" then
              match r' with
              | String h1 (String h2 (String h3 (String h4 r''))) =>
                  match hex4 h1 h2 h3 h4 with
                  | Some n =>
                      if (n <? 256)%nat
                      then option_map (cons_fst (ascii_of_nat n)) (parse_string r'')
                      else None
                  | None => None
                  end
              | _ => None
              end
            else
              match unescape e with
              | Some c' => option_map (cons_fst c') (parse_string r')
              | None => None
              end
        end
      else if (nat_of_ascii c <? 32)%nat then None
      else option_map (cons_fst c) (parse_string r)
  end.

(** [d[key] = v] on a dict with str keys. *)
Fixpoint dict_set (d : list (pyval * pyval)) (key : string) (v : pyval)
  : list (pyval * pyval) :=
  match d with
  | [] => [(PStr key, v)]
  | (PStr k, x) :: d' =>
      if String.eqb k key then (PStr k, v) :: d' else (PStr k, x) :: dict_set d' key v
  | kx :: d' => kx :: dict_set d' key v
  end.

Definition dict_of_members (ms : list (string * pyval)) : pyval :=
  PDict (fold_left (fun d m => dict_set d (fst m) (snd m)) ms []).

(** JSON texts built from strings, arrays and objects, which is what a
    dataset line is made of. [parse_elements] and [parse_members] read
    the rest of an array or an object up to its closing bracket. Every
    call reads at least one character, so [fuel] need not exceed the
    length of the text. *)
Fixpoint parse_value (fuel : nat) (s : string) {struct fuel} : option (pyval * string) :=
  match fuel with
  | O => None
  | S fuel' =>
      match skip_ws s with
      | EmptyString => None
      | String c r =>
          if Ascii.eqb c dquote then
            match parse_string r with
            | Some (str, rest) => Some (PStr str, rest)
            | None => None
            end
          else if Ascii.eqb c "[" then
            match skip_ws r with
            | EmptyString => None
            | String c' r' =>
                if Ascii.eqb c' "]" then Some (PList [], r')
                else
                  match parse_elements fuel' (String c' r') with
                  | Some (l, rest) => Some (PList l, rest)
                  | None => None
                  end
            end
          else if Ascii.eqb c "{" then
            match skip_ws r with
            | EmptyString => None
            | String c' r' =>
                if Ascii.eqb c' "}" then Some (PDict [], r')
                else
                  match parse_members fuel' (String c' r') with
                  | Some (ms, rest) => Some (dict_of_members ms, rest)
                  | None => None
                  end
            end
          else None
      end
  end
with parse_elements (fuel : nat) (s : string) {struct fuel} : option (list pyval * string) :=
  match fuel with
  | O => None
  | S fuel' =>
      match parse_value fuel' s with
      | None => None
      | Some (v, rest) =>
          match skip_ws rest with
          | EmptyString => None
          | String c r =>
              if Ascii.eqb c "]" then Some ([v], r)
              else if Ascii.eqb c "," then
                match parse_elements fuel' r with
                | Some (l, rest') => Some (v :: l, rest')
                | None => None
                end
              else None
          end
      end
  end
with parse_members (fuel : nat) (s : string) {struct fuel}
  : option (list (string * pyval) * string) :=
  match fuel with
  | O => None
  | S fuel' =>
      match skip_ws s with
      | EmptyString => None
      | String q r =>
          if Ascii.eqb q dquote then
            match parse_string r with
            | None => None
            | Some (key, rest) =>
                match skip_ws rest with
                | EmptyString => None
                | String c rest1 =>
                    if Ascii.eqb c ":" then
                      match parse_value fuel' rest1 with
                      | None => None
                      | Some (v, rest2) =>
                          match skip_ws rest2 with
                          | EmptyString => None
                          | String c' rest3 =>
                              if Ascii.eqb c' "}" then Some ([(key, v)], rest3)
                              else if Ascii.eqb c' "," then
                                match parse_members fuel' rest3 with
                                | Some (ms, rest') => Some ((key, v) :: ms, rest')
                                | None => None
                                end
                              else None
                          end
                      end
                    else None
                end
            end
          else None
      end
  end.

(** One line of the file as a value. *)
Definition loads (line : string) : result pyval :=
  match parse_value (String.length line) line with
  | Some (v, rest) =>
      match skip_ws rest with
      | EmptyString => Ok v
      | _ => Raise SerializationError
      end
  | None => Raise SerializationError
  end.

(** The lines of a text, each without the newline that ends it; a last
    line need not be ended by one. *)
Fixpoint lines (text : string) : list string :=
  match text with
  | EmptyString => []
  | String c r =>
      if Ascii.eqb c newline then EmptyString :: lines r
      else
        match lines r with
        | [] => [String c EmptyString]
        | line :: ls => String c line :: ls
        end
  end.

(** Modelled from the spec: the source has [save_prompts] only; [load]
    is the symmetric capability of section 4.3, which reads the
    line-delimited JSON objects of a file back, in file order, and fails
    with [SerializationError] on a line that does not parse. *)
Definition load (fs : filesystem) (p : path) : result (list pyval) :=
  text <- Fs.read fs p ;;
  mapM loads (lines text).

End Load.

(** ** The text of a dataset file *)

Module Line.

Import Json.

(** The line [json.dumps] writes for a message, for a conversation and
    for an entry of the data model. *)
Definition message_text (m : Message) : string :=
  "{" +:+ encode_basestring_ascii "role" +:+ ": " +:+ encode_basestring_ascii (role m)
  +:+ ", " +:+ encode_basestring_ascii "content" +:+ ": "
  +:+ encode_basestring_ascii (content m) +:+ "}".

Definition messages_text (l : list Message) : string :=
  "[" +:+ String.concat ", " (map message_text l) +:+ "]".

Definition entry_text (e : DatasetEntry) : string :=
  "{" +:+ encode_basestring_ascii "a" +:+ ": " +:+ messages_text (a e)
  +:+ ", " +:+ encode_basestring_ascii "b" +:+ ": " +:+ messages_text (b e) +:+ "}".

(** Lines, each ended by a newline. *)
Definition unlines (ls : list string) : string :=
  fold_right (fun line text => line +:+ String newline text) EmptyString ls.

(** Printable ASCII: what a line is made of. Such a text is its own
    UTF-8 encoding, byte for byte. *)
Definition printable_char (c : ascii) : bool :=
  ((32 <=? nat_of_ascii c) && (nat_of_ascii c <=? 126))%nat.

Fixpoint printable (s : string) : bool :=
  match s with
  | EmptyString => true
  | String c r => printable_char c && printable r
  end.


End Line.

(** ** System templates as format strings *)

Module Template.

(** The replacement fields the markup iterator comes across when it walks
    a format string. *)
Inductive reaches : string -> field -> Prop :=
| reaches_here s lit f rest :
    Format.MarkupIterator_next s = Ok (lit, Some f, rest) -> reaches s f
| reaches_later s lit o rest f :
    s <> EmptyString ->
    Format.MarkupIterator_next s = Ok (lit, o, rest) -> reaches rest f -> reaches s f.

(** The argument a field names: the first part of its field name. *)
Definition keyword (f : field) : string := fst (Format.split_first (field_name f)).

(** The field is the trait placeholder as it is meant to be written,
    [{identity}]. *)
Definition placeholder (f : field) : Prop :=
  Format.split_first (field_name f) = ("identity", EmptyString)
  /\ conversion f = None /\ format_spec f = EmptyString.

Fixpoint brace_free (s : string) : bool :=
  match s with
  | EmptyString => true
  | String c r => negb (Format.is_brace c) && brace_free r
  end.

(** Literal text with placeholders, and at least one of them. *)
Definition plain (s : string) : Prop :=
  (exists f, reaches s f) /\ (forall f, reaches s f -> placeholder f).

(** Every field on [identity] is the placeholder as it is meant to be
    written: nothing of the template is left to the rendering of
    extended fields. *)
Definition bare_only (s : string) : Prop :=
  forall f, reaches s f -> keyword f = "identity" -> placeholder f.

End Template.

(** The entries one record stands for, given its two system messages. *)
Definition entries_of (t : TemplateRecord) (system1 system2 : string) : list pyval :=
  map (fun user_prompt => entry system1 system2 (PStr user_prompt)) (prompts t).

(** What [expand_template] comes to on a record of the data model. *)
Definition expand_record `{External} (a_adjective b_adjective : string)
  (t : TemplateRecord) : result (list pyval) :=
  system1 <- Format.format (system_template t) a_adjective ;;
  system2 <- Format.format (system_template t) b_adjective ;;
  Ok (entries_of t system1 system2).


(** ** A concrete environment

    Used to run the definitions on concrete inputs: [yaml.safe_load] is
    restricted to documents written in JSON flow syntax with strings,
    sequences and mappings, which it reads as JSON does; the manager
    accepts every call; extended fields, which no run below contains,
    are rejected. *)

Module Example.

Definition env : External := {|
  format_extended := fun _ _ => Raise (ValueError "extended field");
  safe_load := fun text =>
    match Load.loads text with
    | Ok v => Ok v
    | Raise _ => Raise YAMLError
    end;
  home := ["home"; "user"]%string;
  package_dir := ["site-packages"; "palinor"]%string;
  manager_train_vector := fun _ _ _ _ => Ok tt
|}.

(** The text of a template file that holds the given records. *)
Definition template_text (ts : list TemplateRecord) : string :=
  match Json.dumps (py_of_records ts) with
  | Ok text => text
  | Raise _ => EmptyString
  end.

Definition template_path : path := ["templates"; "t.yaml"]%string.

(** A disk with the home directory and one template file of the given
    text. *)
Definition disk_with (text : string) : gmap (list string) node :=
  <[template_path := File text]>
    (<[["templates"]%string := Dir]>
       (<[["home"; "user"]%string := Dir]>
          (<[["home"]%string := Dir]> (<[[] := Dir]> ∅)))).

Definition disk (ts : list TemplateRecord) : gmap (list string) node :=
  disk_with (template_text ts).



(** The record of the concrete scenario of the specification. *)
Definition be_identity : TemplateRecord :=
  {| system_template := "Be {identity}."; prompts := ["Hi"; "Tell me a joke"]%string |}.

(** A record whose system template has no placeholder. *)
Definition be_nice : TemplateRecord :=
  {| system_template := "Be nice."; prompts := ["Hi"]%string |}.







(** A record whose system template names another argument. *)
Definition be_foo : TemplateRecord :=
  {| system_template := "Be {foo}."; prompts := ["Hi"]%string |}.

(** The entries of the concrete scenario of the specification, as values
    of the data model and as the generator builds them. *)
Definition scenario_entries : list DatasetEntry :=
  [{| a := [{| role := "system"; content := "Be kind." |};
            {| role := "user"; content := "Hi" |}];
      b := [{| role := "system"; content := "Be cruel." |};
            {| role := "user"; content := "Hi" |}] |};
   {| a := [{| role := "system"; content := "Be kind." |};
            {| role := "user"; content := "Tell me a joke" |}];
      b := [{| role := "system"; content := "Be cruel." |};
            {| role := "user"; content := "Tell me a joke" |}] |}].

Definition scenario : list pyval :=
  [entry "Be kind." "Be cruel." (PStr "Hi");
   entry "Be kind." "Be cruel." (PStr "Tell me a joke")].

(** The session after [create_dataset("x", "kind", "cruel")]. *)
Definition created : world * palinorShell * result unit :=
  @create_dataset env (World (disk [be_identity]) []) init "x" "kind" "cruel"
    (Some template_path).

(** A file in the home directory. *)
Definition out_path : path := ["home"; "user"; "out.jsonl"]%string.



(** The disks of the scenario after [mkdir] on the directory of the
    datasets. *)
Definition with_datasets_dir : gmap (list string) node :=
  <[["home"; "user"; ".palinor"; "datasets"]%string := Dir]>
    (<[["home"; "user"; ".palinor"]%string := Dir]> (disk [be_identity])).

Definition foo_with_datasets_dir : gmap (list string) node :=
  <[["home"; "user"; ".palinor"; "datasets"]%string := Dir]>
    (<[["home"; "user"; ".palinor"]%string := Dir]> (disk [be_foo])).

End Example.

(** ** Field names *)

Module FieldName.

Definition is_digit (c : ascii) : bool :=
  match Format.digit_value c with
  | Some _ => true
  | None => false
  end.

(** A character that neither ends a field name nor starts an accessor. *)
Definition name_char (c : ascii) : bool :=
  negb ((c =? "{")%char || (c =? "}")%char || (c =? "[")%char || (c =? "]")%char
        || (c =? ".")%char || (c =? "!")%char || (c =? ":")%char).

Fixpoint name_chars (s : string) : bool :=
  match s with
  | EmptyString => true
  | String c r => name_char c && name_chars r
  end.

(** A keyword: name characters, the first of them not a digit. *)
Definition identifier (s : string) : bool :=
  match s with
  | EmptyString => false
  | String c _ => negb (is_digit c) && name_chars s
  end.

End FieldName.

(** ** Shapes of loaded templates and of entries *)

Module Shape.

(** What [expand_template] needs of a template to return: a mapping with
    the two keys, a str under [system_template] that can be substituted
    with either trait, and something to iterate over under [prompts]. *)
Definition expands `{External} (a_adjective b_adjective : string) (t : pyval) : Prop :=
  exists d s x,
    t = PDict d
    /\ Py.dict_get d "system_template" = Some (PStr s)
    /\ Py.dict_get d "prompts" = Some x
    /\ (exists s1, Format.format s a_adjective = Ok s1)
    /\ (exists s2, Format.format s b_adjective = Ok s2)
    /\ (exists l, Py.iter x = Ok l).

(** A value stands for a record of the data model: a mapping with the
    two keys, in any order and among any others. *)
Definition stands_for (v : pyval) (t : TemplateRecord) : Prop :=
  exists d,
    v = PDict d
    /\ Py.dict_get d "system_template" = Some (PStr (system_template t))
    /\ Py.dict_get d "prompts" = Some (PList (map PStr (prompts t))).

(** The system templates of a loaded value use [identity] by the bare
    placeholder only. *)
Definition bare_templates (templates : pyval) : Prop :=
  forall ts t d s,
    Py.iter templates = Ok ts -> In t ts -> t = PDict d ->
    Py.dict_get d "system_template" = Some (PStr s) ->
    Template.bare_only s.


End Shape.

(** ** Disks that differ by new directories *)

Module Grow.

(** [fs'] is [fs] with directories added, [p] among the directories it
    has. *)
Definition only_adds (fs fs' : filesystem) (p : path) : Prop :=
  fs' !! p = Some Dir
  /\ forall q, fs' !! q = fs !! q \/ (fs !! q = None /\ fs' !! q = Some Dir).

End Grow.

(** ** cli.py: the [dataset] command *)

Module Cli.

(** [dataset]: the directory is made first, then the prompts are
    generated and saved. The option [templates] is a path that click has
    checked to exist, or is absent. *)
Definition dataset `{External} (w : world) (name a_trait b_trait : string)
  (templates : option path) : world * result unit :=
  match Fs.mkdir_parents (files w) datasets_dir with
  | Raise e => (w, Raise e)
  | Ok fs1 =>
      let template_path :=
        match templates with
        | Some p => p
        | None => default_template
        end in
      match create_personality_prompts fs1 template_path a_trait b_trait with
      | Raise e => (World fs1 (console w), Raise e)
      | Ok prompts =>
          match save_prompts fs1 prompts (output_path name) with
          | (fs2, Raise e) => (World fs2 (console w), Raise e)
          | (fs2, Ok _) =>
              (World fs2
                 (console w ++
                    ["[green]Dataset saved to " +:+ Fs.str (output_path name) +:+ "[/green]"]),
               Ok tt)
          end
      end
  end.

End Cli.

(** * Properties *)

(** ** The format-string scanner *)

Module FormatFacts.

Import Format.

Lemma scan_field_name_rest (s : string) : forall b name c rest,
  scan_field_name b s = (name, Stop c rest) ->
  (String.length rest < String.length s)%nat.
Proof.
  induction s as [|c0 s IH]; intros b name c rest; simpl; [discriminate|].
  destruct b.
  - destruct (scan_field_name (negb (c0 =? "]")%char) s) as [n e] eqn:E.
    unfold cons_fst; simpl. intros [= _ ->]. apply IH in E. lia.
  - destruct (c0 =? "{")%char; [discriminate|].
    destruct (c0 =? "[")%char.
    + destruct (scan_field_name true s) as [n e] eqn:E.
      unfold cons_fst; simpl. intros [= _ ->]. apply IH in E. lia.
    + destruct ((c0 =? "}")%char || (c0 =? ":")%char || (c0 =? "!")%char).
      * intros [= _ _ <-]. lia.
      * destruct (scan_field_name false s) as [n e] eqn:E.
        unfold cons_fst; simpl. intros [= _ ->]. apply IH in E. lia.
Qed.

Lemma scan_format_spec_rest (s : string) : forall count spec rest,
  scan_format_spec count s = Some (spec, rest) ->
  (String.length rest < String.length s)%nat.
Proof.
  induction s as [|c s IH]; intros count spec rest; simpl; [discriminate|].
  assert (step : forall k, option_map (cons_fst c) (scan_format_spec k s) = Some (spec, rest) ->
                           (String.length rest < S (String.length s))%nat).
  { intros k. destruct (scan_format_spec k s) as [[sp r]|] eqn:E; simpl; [|discriminate].
    intros [= _ <-]. apply IH in E. lia. }
  destruct (c =? "{")%char; [apply step|].
  destruct (c =? "}")%char; [|apply step].
  destruct count as [|[|k]]; try apply step; intros [= _ <-]; lia.
Qed.

Lemma parse_format_spec_rest name conv s f rest :
  parse_format_spec name conv s = Ok (f, rest) ->
  (String.length rest < String.length s)%nat.
Proof.
  unfold parse_format_spec.
  destruct (scan_format_spec 1 s) as [[sp r]|] eqn:E; [|discriminate].
  intros [= _ <-]. eapply scan_format_spec_rest; eauto.
Qed.

Lemma parse_field_rest s f rest :
  parse_field s = Ok (f, rest) -> (String.length rest < String.length s)%nat.
Proof.
  unfold parse_field.
  destruct (scan_field_name false s) as [name [| |c r]] eqn:E; try discriminate.
  apply scan_field_name_rest in E.
  destruct (c =? "!")%char.
  - unfold parse_conversion. destruct r as [|conv [|c' r']]; try discriminate.
    destruct (c' =? "}")%char; [intros [= _ <-]; simpl in *; lia|].
    destruct (c' =? ":")%char; [|discriminate].
    intros P. apply parse_format_spec_rest in P. simpl in *. lia.
  - destruct (c =? ":")%char.
    + intros P. apply parse_format_spec_rest in P. lia.
    + intros [= _ <-]. lia.
Qed.

(** A step of the iterator on a non-empty string consumes at least one
    character. *)
Lemma MarkupIterator_next_rest (s : string) : forall lit o rest,
  s <> EmptyString ->
  MarkupIterator_next s = Ok (lit, o, rest) ->
  (String.length rest < String.length s)%nat.
Proof.
  induction s as [|c s IH]; intros lit o rest NE; [congruence|]. simpl.
  destruct (is_brace c).
  - destruct s as [|c' s']; [discriminate|].
    destruct (c =? c')%char; [intros [= _ _ <-]; simpl; lia|].
    destruct (c =? "}")%char; [discriminate|].
    destruct (parse_field (String c' s')) as [[f r]|] eqn:P; simpl; [|discriminate].
    intros [= _ _ <-]. apply parse_field_rest in P. simpl in *. lia.
  - case_eq (MarkupIterator_next s); [intros [[l o'] r] M | discriminate]. simpl.
    intros [= _ _ <-].
    destruct s as [|c' s'].
    + simpl in M. injection M as _ _ <-. simpl. lia.
    + apply IH in M; [simpl in *; lia | discriminate].
Qed.

Section Budget.
Context `{External}.

(** The budget of [build_string] is never used up. *)
Lemma build_string_budget (n : nat) : forall m identity s,
  (String.length s <= n)%nat -> (String.length s <= m)%nat ->
  build_string n identity s = build_string m identity s.
Proof.
  induction n as [|n IH]; intros m identity s Ln Lm.
  - destruct s; [destruct m; reflexivity | simpl in Ln; lia].
  - destruct s as [|c s]; [destruct m; reflexivity|].
    destruct m as [|m]; [simpl in Lm; lia|].
    cbn [build_string].
    destruct (MarkupIterator_next (String c s)) as [[[lit o] rest]|] eqn:M; simpl; [|reflexivity].
    apply MarkupIterator_next_rest in M; [|discriminate]. simpl in M.
    destruct (match o with Some f => output_markup identity f | None => Ok EmptyString end);
      simpl; [|reflexivity].
    rewrite (IH m identity rest); [reflexivity | simpl in *; lia | simpl in *; lia].
Qed.

(** [format] unfolds like the loop it stands for. *)
Lemma format_step identity s :
  s <> EmptyString ->
  format s identity =
    (p <- MarkupIterator_next s ;;
     out <- match snd (fst p) with
            | Some f => output_markup identity f
            | None => Ok EmptyString
            end ;;
     tail <- format (snd p) identity ;;
     Ok (fst (fst p) +:+ out +:+ tail)).
Proof.
  intros NE. unfold format. destruct s as [|c s]; [congruence|].
  cbn [String.length build_string].
  destruct (MarkupIterator_next (String c s)) as [[[lit o] rest]|] eqn:M; simpl; [|reflexivity].
  apply MarkupIterator_next_rest in M; [|discriminate]. simpl in M.
  destruct (match o with Some f => output_markup identity f | None => Ok EmptyString end);
    simpl; [|reflexivity].
  rewrite (build_string_budget (String.length s) (String.length rest)); [reflexivity|lia|lia].
Qed.

Lemma format_empty identity : format EmptyString identity = Ok EmptyString.
Proof. reflexivity. Qed.

End Budget.

End FormatFacts.

(** ** Templates *)

Module TemplateFacts.

Import Format Template FormatFacts.

Lemma reaches_inv s f lit o rest :
  reaches s f -> MarkupIterator_next s = Ok (lit, o, rest) ->
  o = Some f \/ reaches rest f.
Proof.
  intros R M. destruct R as [s lit' f rest' M' | s lit' o' rest' f NE M' R].
  - left. congruence.
  - right. congruence.
Qed.

Lemma reaches_empty f : ~ reaches EmptyString f.
Proof.
  intros R. inversion R as [s lit f' rest M | s lit o rest f' NE M R']; subst.
  - discriminate.
  - congruence.
Qed.

Lemma brace_free_next (s : string) :
  brace_free s = true -> MarkupIterator_next s = Ok (s, None, EmptyString).
Proof.
  induction s as [|c s IH]; simpl; [reflexivity|].
  intros B. apply andb_prop in B as [Bc Bs].
  apply negb_true_iff in Bc. rewrite Bc, (IH Bs). reflexivity.
Qed.

Section Render.
Context `{External}.

Lemma output_markup_placeholder identity f :
  placeholder f -> output_markup identity f = Ok identity.
Proof.
  intros (N & C & S). unfold output_markup, is_bare. rewrite N, C, S. reflexivity.
Qed.

(** A field on any argument but [identity] cannot be rendered: the call
    passes no other argument. *)
Lemma output_markup_foreign identity f :
  keyword f <> "identity" -> raises (output_markup identity f).
Proof.
  unfold keyword, output_markup, raises.
  destruct (split_first (field_name f)) as [first rest]; cbn [fst]. intros NE.
  apply String.eqb_neq in NE. rewrite NE.
  destruct (get_integer first); [destruct (String.eqb first EmptyString)|..]; eauto.
Qed.

Lemma output_markup_foreign_eq a b f :
  keyword f <> "identity" -> output_markup a f = output_markup b f.
Proof.
  unfold keyword, output_markup.
  destruct (split_first (field_name f)) as [first rest]; cbn [fst]. intros NE.
  apply String.eqb_neq in NE. now rewrite NE.
Qed.

(** A template without braces is returned as it is. *)
Lemma format_brace_free identity s :
  brace_free s = true -> format s identity = Ok s.
Proof.
  intros B. destruct s as [|c s]; [reflexivity|].
  rewrite format_step by discriminate.
  rewrite (brace_free_next _ B). simpl.
  now rewrite Str.app_nil_l, Str.app_nil_r.
Qed.

(** A reached field on another argument makes the call raise. *)
Lemma format_foreign identity s f :
  reaches s f -> keyword f <> "identity" -> raises (format s identity).
Proof.
  intros R NE. induction R as [s lit f rest M | s lit o rest f NEs M R IH].
  - assert (s <> EmptyString) by (intros ->; discriminate).
    rewrite format_step, M by assumption. simpl.
    destruct (output_markup_foreign identity f NE) as [e ->]. now exists e.
  - rewrite format_step, M by assumption. simpl.
    destruct (match o with Some f0 => output_markup identity f0 | None => Ok EmptyString end);
      simpl; [|eexists; reflexivity].
    destruct (IH NE) as [e ->]. now exists e.
Qed.

(** Without a field on [identity] the result does not depend on the
    argument. *)
Lemma format_independent (n : nat) : forall s a b,
  (String.length s <= n)%nat ->
  (forall f, reaches s f -> keyword f <> "identity") ->
  format s a = format s b.
Proof.
  induction n as [|n IH]; intros s a b L NoId.
  - destruct s; [reflexivity | simpl in L; lia].
  - destruct s as [|c s]; [reflexivity|].
    rewrite !format_step by discriminate.
    destruct (MarkupIterator_next (String c s)) as [[[lit o] rest]|] eqn:M; simpl; [|reflexivity].
    assert (Lr : (String.length rest <= n)%nat).
    { apply MarkupIterator_next_rest in M; [simpl in *; lia | discriminate]. }
    assert (E : format rest a = format rest b).
    { apply IH; [exact Lr|]. intros f R. apply NoId.
      eapply reaches_later; [discriminate | exact M | exact R]. }
    destruct o as [f|]; [|now rewrite E].
    rewrite (output_markup_foreign_eq a b f), E; [reflexivity|].
    apply NoId. eapply reaches_here; eauto.
Qed.

(** On a template whose fields are all placeholders, the length of the
    result is affine in the length of the argument. *)
Lemma format_plain_length (n : nat) : forall s a b ra rb,
  (String.length s <= n)%nat ->
  (forall f, reaches s f -> placeholder f) ->
  format s a = Ok ra -> format s b = Ok rb ->
  exists L k,
    String.length ra = (L + k * String.length a)%nat
    /\ String.length rb = (L + k * String.length b)%nat
    /\ ((exists f, reaches s f) -> (1 <= k)%nat).
Proof.
  assert (base : forall a b ra rb,
    format EmptyString a = Ok ra -> format EmptyString b = Ok rb ->
    exists L k,
      String.length ra = (L + k * String.length a)%nat
      /\ String.length rb = (L + k * String.length b)%nat
      /\ ((exists f, reaches EmptyString f) -> (1 <= k)%nat)).
  { intros a b ra rb [= <-] [= <-]. exists 0%nat, 0%nat.
    repeat split. intros [f R]. destruct (reaches_empty _ R). }
  induction n as [|n IH]; intros s a b ra rb Ls P Fa Fb.
  - destruct s; [eauto | simpl in Ls; lia].
  - destruct s as [|c s]; [eauto|].
    rewrite format_step in Fa, Fb by discriminate.
    destruct (MarkupIterator_next (String c s)) as [[[lit o] rest]|] eqn:M;
      cbn [bind fst snd] in Fa, Fb; [|discriminate].
    assert (Lr : (String.length rest <= n)%nat).
    { apply MarkupIterator_next_rest in M; [simpl in *; lia | discriminate]. }
    assert (Pr : forall f, reaches rest f -> placeholder f).
    { intros f R. apply P. eapply reaches_later; [discriminate | exact M | exact R]. }
    destruct o as [f|].
    + assert (Pf : placeholder f) by (apply P; eapply reaches_here; eauto).
      rewrite (output_markup_placeholder a _ Pf) in Fa.
      rewrite (output_markup_placeholder b _ Pf) in Fb. cbn [bind] in Fa, Fb.
      destruct (format rest a) as [ta|] eqn:Ta; cbn [bind] in Fa; [|discriminate].
      destruct (format rest b) as [tb|] eqn:Tb; cbn [bind] in Fb; [|discriminate].
      injection Fa as <-. injection Fb as <-.
      destruct (IH rest a b ta tb Lr Pr Ta Tb) as (L & k & Ha & Hb & _).
      exists (String.length lit + L)%nat, (S k). rewrite !Str.length_app, Ha, Hb.
      repeat split; lia.
    + cbn [bind] in Fa, Fb.
      destruct (format rest a) as [ta|] eqn:Ta; cbn [bind] in Fa; [|discriminate].
      destruct (format rest b) as [tb|] eqn:Tb; cbn [bind] in Fb; [|discriminate].
      injection Fa as <-. injection Fb as <-.
      destruct (IH rest a b ta tb Lr Pr Ta Tb) as (L & k & Ha & Hb & Hk).
      exists (String.length lit + L)%nat, k. rewrite !Str.length_app, Ha, Hb.
      repeat split; try (simpl; lia).
      intros [f R]. destruct (reaches_inv _ _ _ _ _ R M) as [?|R']; [discriminate|].
      apply Hk. eauto.
Qed.

(** On such a template with at least one placeholder, two arguments of
    the same length and with the same result are the same. *)
Lemma format_plain_inj (n : nat) : forall s a b r,
  (String.length s <= n)%nat ->
  (forall f, reaches s f -> placeholder f) ->
  (exists f, reaches s f) ->
  String.length a = String.length b ->
  format s a = Ok r -> format s b = Ok r -> a = b.
Proof.
  induction n as [|n IH]; intros s a b r Ls P [f0 R0] Lab Fa Fb.
  - destruct s; [destruct (reaches_empty _ R0) | simpl in Ls; lia].
  - destruct s as [|c s]; [destruct (reaches_empty _ R0)|].
    rewrite format_step in Fa, Fb by discriminate.
    destruct (MarkupIterator_next (String c s)) as [[[lit o] rest]|] eqn:M;
      cbn [bind fst snd] in Fa, Fb; [|discriminate].
    assert (Lr : (String.length rest <= n)%nat).
    { apply MarkupIterator_next_rest in M; [simpl in *; lia | discriminate]. }
    assert (Pr : forall f, reaches rest f -> placeholder f).
    { intros f R. apply P. eapply reaches_later; [discriminate | exact M | exact R]. }
    destruct o as [f|].
    + assert (Pf : placeholder f) by (apply P; eapply reaches_here; eauto).
      rewrite (output_markup_placeholder a _ Pf) in Fa.
      rewrite (output_markup_placeholder b _ Pf) in Fb. cbn [bind] in Fa, Fb.
      destruct (format rest a) as [ta|]; cbn [bind] in Fa; [|discriminate].
      destruct (format rest b) as [tb|]; cbn [bind] in Fb; [|discriminate].
      injection Fa as <-. injection Fb as Fb.
      apply Str.app_inv_head in Fb.
      now destruct (Str.app_eq_length _ _ _ _ Fb (eq_sym Lab)) as [-> _].
    + cbn [bind] in Fa, Fb.
      destruct (format rest a) as [ta|] eqn:Ta; cbn [bind] in Fa; [|discriminate].
      destruct (format rest b) as [tb|] eqn:Tb; cbn [bind] in Fb; [|discriminate].
      injection Fa as <-. injection Fb as Fb.
      apply Str.app_inv_head in Fb. rewrite !Str.app_nil_l in Fb. subst tb.
      destruct (reaches_inv _ _ _ _ _ R0 M) as [?|R']; [discriminate|].
      apply (IH rest a b ta); eauto.
Qed.

(** Two different traits give two different system messages on a
    template made of literal text and placeholders. *)
Lemma format_plain_differs s a b ra rb :
  plain s -> a <> b ->
  format s a = Ok ra -> format s b = Ok rb -> ra <> rb.
Proof.
  intros [Ex P] NE Fa Fb ->.
  destruct (format_plain_length _ s a b rb rb (le_n _) P Fa Fb) as (L & k & Ha & Hb & Hk).
  specialize (Hk Ex).
  assert (Lab : String.length a = String.length b) by nia.
  apply NE. eapply format_plain_inj; eauto.
Qed.

End Render.

End TemplateFacts.

(** ** The generator *)

Module GeneratorFacts.

Import TemplateFacts.

Lemma mapM_app {A B} (f : A -> result B) (l1 l2 : list A) :
  mapM f (l1 ++ l2) = (ys1 <- mapM f l1 ;; ys2 <- mapM f l2 ;; Ok (ys1 ++ ys2)).
Proof.
  induction l1 as [|x l1 IH]; simpl.
  - destruct (mapM f l2); reflexivity.
  - destruct (f x); simpl; [|reflexivity]. rewrite IH.
    destruct (mapM f l1); simpl; [|reflexivity].
    destruct (mapM f l2); reflexivity.
Qed.

Lemma mapM_map {A B C} (f : B -> result C) (g : A -> B) (l : list A) :
  mapM f (map g l) = mapM (fun x => f (g x)) l.
Proof. induction l as [|x l IH]; simpl; [reflexivity | now rewrite IH]. Qed.

Lemma mapM_ext {A B} (f g : A -> result B) (l : list A) :
  (forall x, f x = g x) -> mapM f l = mapM g l.
Proof. intros E. induction l as [|x l IH]; simpl; [reflexivity | now rewrite E, IH]. Qed.

Lemma mapM_Ok {A B} (f : A -> result B) (l : list A) (ys : list B) :
  mapM f l = Ok ys -> Forall2 (fun x y => f x = Ok y) l ys.
Proof.
  revert ys. induction l as [|x l IH]; simpl; intros ys.
  - intros [= <-]. constructor.
  - destruct (f x) as [y|] eqn:F; simpl; [|discriminate].
    destruct (mapM f l) as [ys'|]; simpl; [|discriminate].
    intros [= <-]. constructor; auto.
Qed.

Lemma mapM_total {A B} (f : A -> result B) (l : list A) :
  (forall x, In x l -> exists y, f x = Ok y) -> exists ys, mapM f l = Ok ys.
Proof.
  induction l as [|x l IH]; simpl; intros T; [eauto|].
  destruct (T x (or_introl eq_refl)) as [y ->].
  destruct IH as [ys ->]; [intros; apply T; auto|]. simpl. eauto.
Qed.

Lemma mapM_raises {A B} (f : A -> result B) (l : list A) (x : A) :
  In x l -> raises (f x) -> raises (mapM f l).
Proof.
  induction l as [|x' l IH]; simpl; [tauto|].
  intros [->|I] R.
  - destruct R as [e ->]. now exists e.
  - destruct (f x'); simpl; [|now eexists].
    destruct (IH I R) as [e ->]. now exists e.
Qed.

Section Generator.
Context `{External}.

(** The loop over the templates appends what each template stands for. *)
Lemma for_templates_mapM a b (ts : list pyval) : forall acc,
  for_templates a b ts acc =
    (ess <- mapM (expand_template a b) ts ;; Ok (acc ++ concat ess)).
Proof.
  induction ts as [|t ts IH]; intros acc; simpl.
  - now rewrite app_nil_r.
  - destruct (expand_template a b t) as [es|]; simpl; [|reflexivity].
    rewrite IH. destruct (mapM (expand_template a b) ts); simpl; [|reflexivity].
    now rewrite app_assoc.
Qed.

Lemma expand_template_record a b (t : TemplateRecord) :
  expand_template a b (py_of_record t) = expand_record a b t.
Proof.
  unfold expand_template, expand_record, py_of_record. simpl.
  destruct (Format.format (system_template t) a); simpl; [|reflexivity].
  destruct (Format.format (system_template t) b); simpl; [|reflexivity].
  unfold entries_of. now rewrite map_map.
Qed.

(** The generator on records of the data model. *)
Lemma generate_records a b (ts : list TemplateRecord) :
  generate (py_of_records ts) a b =
    (ess <- mapM (expand_record a b) ts ;; Ok (concat ess)).
Proof.
  unfold generate, py_of_records. simpl. rewrite for_templates_mapM, mapM_map.
  rewrite (mapM_ext _ _ _ (expand_template_record a b)). reflexivity.
Qed.

Lemma create_personality_prompts_records fs p a b ts :
  load_yaml_template fs p = Ok (py_of_records ts) ->
  create_personality_prompts fs p a b =
    (ess <- mapM (expand_record a b) ts ;; Ok (concat ess)).
Proof.
  intros L. unfold create_personality_prompts. rewrite L. apply generate_records.
Qed.

End Generator.


End GeneratorFacts.

(** ** Paths that do not exist *)

Module PathFacts.

Import Fs.









End PathFacts.

(** ** Two runs *)

Module RunFacts.

Import Format Template FormatFacts TemplateFacts.

Section Runs.
Variables run1 run2 : External.






End Runs.

End RunFacts.

(** ** The prompt pair generator *)

Module GeneratorClaims.

Import Template TemplateFacts GeneratorFacts.

Section Claims.
Context `{External}.

(** Every entry the generator returns was built by the dict display of
    the loop, whatever the template file holds. *)
Lemma produced_entry fs p a b es e :
  create_personality_prompts fs p a b = Ok es -> In e es ->
  exists system1 system2 user_prompt, e = entry system1 system2 user_prompt.
Proof.
  unfold create_personality_prompts, generate.
  destruct (load_yaml_template fs p) as [templates|]; simpl; [|discriminate].
  destruct (Py.iter templates) as [ts|]; simpl; [|discriminate].
  rewrite for_templates_mapM.
  destruct (mapM (expand_template a b) ts) as [ess|] eqn:M; simpl; [|discriminate].
  intros [= <-] I. apply in_concat in I as (es_t & I1 & I2).
  apply mapM_Ok in M.
  assert (X : exists t, expand_template a b t = Ok es_t).
  { clear -M I1. induction M as [|t es' ts ess F _ IH]; simpl in I1; [tauto|].
    destruct I1 as [<-|I1]; eauto. }
  destruct X as [t X]. unfold expand_template in X.
  destruct (Py.getitem t "system_template"); simpl in X; [|discriminate].
  destruct (Py.getitem t "prompts"); simpl in X; [|discriminate].
  destruct (Py.format _ a) as [s1|]; simpl in X; [|discriminate].
  destruct (Py.format _ b) as [s2|]; simpl in X; [|discriminate].
  destruct (Py.iter _); simpl in X; [|discriminate].
  injection X as <-. apply in_map_iff in I2 as (u & <- & _). eauto.
Qed.

(** What a call on records returns: record by record, the entries of
    each record under its two system messages. *)
Lemma returned_entries fs p a b ts es :
  load_yaml_template fs p = Ok (py_of_records ts) ->
  create_personality_prompts fs p a b = Ok es ->
  exists ess, es = concat ess /\ Forall2 (fun t es_t => expand_record a b t = Ok es_t) ts ess.
Proof.
  intros L. rewrite (create_personality_prompts_records _ _ _ _ _ L).
  destruct (mapM (expand_record a b) ts) as [ess|] eqn:M; simpl; [|discriminate].
  intros [= <-]. exists ess. split; [reflexivity | now apply mapM_Ok].
Qed.

Lemma expand_record_Ok a b t es_t :
  expand_record a b t = Ok es_t ->
  exists s1 s2, Format.format (system_template t) a = Ok s1
                /\ Format.format (system_template t) b = Ok s2
                /\ es_t = entries_of t s1 s2.
Proof.
  unfold expand_record.
  destruct (Format.format _ a) as [s1|]; simpl; [|discriminate].
  destruct (Format.format _ b) as [s2|]; simpl; [|discriminate].
  intros [= <-]. eauto.
Qed.

(** C1 (as amended): a record whose system template has no field on
    [identity] never yields two different system messages, and raises
    no error of its own when the template has no brace at all: it then
    expands to one entry per prompt with the unmodified template as
    system message on both sides, and these entries are among those
    the call returns. *)
Theorem missing_placeholder_is_not_detected fs p a b ts t :
  load_yaml_template fs p = Ok (py_of_records ts) ->
  In t ts ->
  (forall f, reaches (system_template t) f -> keyword f <> "identity") ->
  (forall es_t, expand_record a b t = Ok es_t -> exists s, es_t = entries_of t s s)
  /\ (brace_free (system_template t) = true ->
      expand_record a b t = Ok (entries_of t (system_template t) (system_template t))
      /\ forall es e, create_personality_prompts fs p a b = Ok es ->
           In e (entries_of t (system_template t) (system_template t)) -> In e es).
Proof.
  intros L I NoId. split.
  - intros es_t E. apply expand_record_Ok in E as (s1 & s2 & F1 & F2 & ->).
    rewrite (format_independent _ _ a b (le_n _) NoId) in F1.
    exists s1. congruence.
  - intros B.
    assert (E : expand_record a b t
                = Ok (entries_of t (system_template t) (system_template t))).
    { unfold expand_record. now rewrite !(format_brace_free _ _ B). }
    split; [exact E|].
    intros es e R Ie. destruct (returned_entries _ _ _ _ _ _ L R) as (ess & -> & F).
    apply in_concat. exists (entries_of t (system_template t) (system_template t)).
    split; [|exact Ie].
    clear -F I E. induction F as [|t' es' ts ess F1 _ IH]; simpl in *; [tauto|].
    destruct I as [->|I]; [left; congruence | right; auto].
Qed.

(** C2 (as amended): in every entry the generator returns the two user
    turns have the same content; and when the traits differ and every
    system template is literal text with at least one [{identity}]
    placeholder, the two system turns differ. *)
Theorem pairing_invariant fs p a b ts es :
  load_yaml_template fs p = Ok (py_of_records ts) ->
  create_personality_prompts fs p a b = Ok es ->
  Forall (fun e => exists u, content_at e "a" 1 = Ok u /\ content_at e "b" 1 = Ok u) es
  /\ (a <> b -> (forall t, In t ts -> plain (system_template t)) ->
      Forall (fun e => content_at e "a" 0 <> content_at e "b" 0) es).
Proof.
  intros L R. split.
  - apply List.Forall_forall. intros e I.
    destruct (produced_entry _ _ _ _ _ _ R I) as (s1 & s2 & u & ->).
    exists u. split; reflexivity.
  - intros NE P. destruct (returned_entries _ _ _ _ _ _ L R) as (ess & -> & F).
    apply List.Forall_forall. intros e I. apply in_concat in I as (es_t & I1 & I2).
    assert (X : exists t, In t ts /\ expand_record a b t = Ok es_t).
    { clear -F I1. induction F as [|t es' ts ess F1 _ IH]; simpl in I1; [tauto|].
      destruct I1 as [<-|I1]; [exists t; simpl; auto|].
      destruct (IH I1) as (t' & ? & ?). exists t'. simpl. auto. }
    destruct X as (t & It & E). apply expand_record_Ok in E as (s1 & s2 & F1 & F2 & ->).
    unfold entries_of in I2. apply in_map_iff in I2 as (u & <- & _).
    change (Ok (PStr s1) <> Ok (PStr s2)). intros [= E12].
    exact (format_plain_differs _ _ _ _ _ (P t It) NE F1 F2 E12).
Qed.


(** C10: a record whose system template has a replacement field on
    another argument than [identity] makes the call raise: no entry is
    returned. *)
Theorem foreign_placeholder_raises fs p a b ts t f :
  load_yaml_template fs p = Ok (py_of_records ts) ->
  In t ts ->
  reaches (system_template t) f -> keyword f <> "identity" ->
  raises (create_personality_prompts fs p a b).
Proof.
  intros L I R K. rewrite (create_personality_prompts_records _ _ _ _ _ L).
  assert (X : raises (mapM (expand_record a b) ts)).
  { apply (mapM_raises _ _ t I). unfold expand_record.
    destruct (format_foreign a _ _ R K) as [e ->]. now exists e. }
  destruct X as [e ->]. now exists e.
Qed.

End Claims.


End GeneratorClaims.

(** ** The template loader *)

Module LoaderClaims.

Section Claims.
Context `{External}.


End Claims.

End LoaderClaims.

(** ** The session *)

Module SessionClaims.

Section Claims.
Context `{External}.

(** No entry built by the generator has an attribute [a_trait]: on a
    registered dataset that is not empty, [train_vector] raises before
    it reaches the manager. *)
Lemma train_vector_registered w self name dataset_name e dataset :
  datasets self !! dataset_name = Some (e :: dataset) ->
  train_vector w self name dataset_name = (w, self, Raise (AttributeError "a_trait")).
Proof. unfold train_vector. now intros ->. Qed.


End Claims.

End SessionClaims.

(** ** Concrete runs *)

Module Runs.

Import Template TemplateFacts Example.

#[local] Existing Instance Example.env.

Lemma brace_free_no_field s f : brace_free s = true -> ~ reaches s f.
Proof.
  intros B R. destruct (reaches_inv _ _ _ _ _ R (brace_free_next _ B)) as [?|R'];
    [discriminate | exact (reaches_empty _ R')].
Qed.

(** C1, as stated, fails: a template without placeholder goes through,
    and the entry has the unmodified template as system message on both
    sides. *)
Lemma missing_placeholder_goes_through :
  create_personality_prompts (disk [be_nice]) template_path "kind" "cruel"
  = Ok [entry "Be nice." "Be nice." (PStr "Hi")].
Proof. vm_compute. reflexivity. Qed.

Lemma missing_placeholder_is_not_detected_run :
  load_yaml_template (disk [be_nice]) template_path = Ok (py_of_records [be_nice])
  /\ In be_nice [be_nice]
  /\ (forall es_t, expand_record "kind" "cruel" be_nice = Ok es_t ->
        exists s, es_t = entries_of be_nice s s)
  /\ (brace_free (system_template be_nice) = true ->
      expand_record "kind" "cruel" be_nice = Ok (entries_of be_nice "Be nice." "Be nice.")
      /\ forall es e,
           create_personality_prompts (disk [be_nice]) template_path "kind" "cruel" = Ok es ->
           In e (entries_of be_nice "Be nice." "Be nice.") -> In e es).
Proof.
  split; [vm_compute; reflexivity|]. split; [left; reflexivity|].
  apply (GeneratorClaims.missing_placeholder_is_not_detected
           (disk [be_nice]) template_path "kind" "cruel" [be_nice] be_nice).
  - vm_compute; reflexivity.
  - left; reflexivity.
  - intros f R. destruct (brace_free_no_field (system_template be_nice) f eq_refl R).
Defined.

(** C2, as stated, fails: the traits differ and the two system turns are
    the same. *)
Lemma different_traits_same_system_turn :
  "kind" <> "cruel"
  /\ exists es e,
       create_personality_prompts (disk [be_nice]) template_path "kind" "cruel" = Ok es
       /\ In e es /\ content_at e "a" 0 = content_at e "b" 0.
Proof.
  split; [discriminate|].
  exists [entry "Be nice." "Be nice." (PStr "Hi")], (entry "Be nice." "Be nice." (PStr "Hi")).
  split; [vm_compute; reflexivity|]. split; [left; reflexivity | reflexivity].
Qed.

Lemma pairing_invariant_run :
  load_yaml_template (disk [be_identity]) template_path = Ok (py_of_records [be_identity])
  /\ create_personality_prompts (disk [be_identity]) template_path "kind" "cruel" = Ok scenario
  /\ Forall (fun e => exists u, content_at e "a" 1 = Ok u /\ content_at e "b" 1 = Ok u) scenario
  /\ ("kind" <> "cruel" ->
      (forall t, In t [be_identity] -> plain (system_template t)) ->
      Forall (fun e => content_at e "a" 0 <> content_at e "b" 0) scenario).
Proof.
  split; [vm_compute; reflexivity|]. split; [vm_compute; reflexivity|].
  apply (GeneratorClaims.pairing_invariant
           (disk [be_identity]) template_path "kind" "cruel" [be_identity] scenario);
    vm_compute; reflexivity.
Defined.



Lemma bare_only_be_identity : bare_only (system_template be_identity).
Proof.
  intros f R _.
  destruct (reaches_inv _ _ "Be " (Some (Field "identity" None EmptyString)) "." R eq_refl)
    as [[= <-]|R1]; [repeat split|].
  destruct (reaches_inv _ _ "." None EmptyString R1 eq_refl) as [?|R2]; [discriminate|].
  destruct (reaches_empty _ R2).
Qed.

Lemma bare_templates_be_identity : Shape.bare_templates (py_of_records [be_identity]).
Proof.
  intros ts t d s [= <-] [<-|[]] [= <-] [= <-]. exact bare_only_be_identity.
Qed.


Lemma foreign_placeholder_raises_run :
  load_yaml_template (disk [be_foo]) template_path = Ok (py_of_records [be_foo])
  /\ reaches (system_template be_foo) (Field "foo" None EmptyString)
  /\ keyword (Field "foo" None EmptyString) <> "identity"
  /\ raises (create_personality_prompts (disk [be_foo]) template_path "kind" "cruel").
Proof.
  assert (R : reaches (system_template be_foo) (Field "foo" None EmptyString)).
  { apply (reaches_here _ "Be " _ "."). reflexivity. }
  split; [vm_compute; reflexivity|]. split; [exact R|]. split; [discriminate|].
  apply (GeneratorClaims.foreign_placeholder_raises
           (disk [be_foo]) template_path "kind" "cruel" [be_foo] be_foo
           (Field "foo" None EmptyString)).
  - vm_compute; reflexivity.
  - left; reflexivity.
  - exact R.
  - discriminate.
Defined.



(** C5 fails on the code: the dataset is registered with its two entries,
    and [train_vector] raises [AttributeError] without a call to the
    manager. *)
Lemma train_vector_on_created_dataset :
  datasets (snd (fst created)) !! "x" = Some scenario
  /\ snd created = Ok tt
  /\ train_vector (fst (fst created)) (snd (fst created)) "v" "x"
     = (fst (fst created), snd (fst created), Raise (AttributeError "a_trait"))
  /\ manager (snd (fst created)) = [].
Proof.
  assert (R : datasets (snd (fst created)) !! "x" = Some scenario)
    by (vm_compute; reflexivity).
  split; [exact R|]. split; [vm_compute; reflexivity|].
  split; [|vm_compute; reflexivity].
  exact (SessionClaims.train_vector_registered _ _ "v" "x" _ _ R).
Qed.



End Runs.

(** ** Dataset lines *)

Module JsonFacts.

Import Json Load Line GeneratorFacts.

(** The parser reads back an escaped character. *)
Lemma parse_string_escape (c : ascii) (k : string) :
  parse_string (escape c +:+ k) = option_map (cons_fst c) (parse_string k).
Proof. destruct c as [[] [] [] [] [] [] [] []]; reflexivity. Qed.

(** The parser reads back the body of an encoded string. *)
Lemma parse_string_escape_all (s rest : string) :
  parse_string (escape_all s +:+ String dquote rest) = Some (s, rest).
Proof.
  induction s as [|c s IH]; [reflexivity|].
  cbn [escape_all]. rewrite Str.app_assoc, parse_string_escape, IH. reflexivity.
Qed.

(** *** What [json.dumps] writes for an entry *)

Lemma dumps_message (m : Message) : dumps (py_of_message m) = Ok (message_text m).
Proof.
  unfold py_of_message, message, message_text.
  cbn [dumps mapM bind key_text fst snd String.concat].
  now rewrite !Str.app_assoc.
Qed.

Lemma dumps_messages (l : list Message) :
  dumps (PList (map py_of_message l)) = Ok (messages_text l).
Proof.
  cbn [dumps]. rewrite mapM_map, (mapM_ext _ (fun m => Ok (message_text m)) _ dumps_message).
  assert (E : mapM (fun m => Ok (message_text m)) l = Ok (map message_text l)).
  { induction l as [|m l IH]; [reflexivity|]. cbn [mapM bind map]. now rewrite IH. }
  now rewrite E.
Qed.

Lemma dumps_dict2 (k1 k2 : string) (v1 v2 : pyval) (s1 s2 : string) :
  dumps v1 = Ok s1 -> dumps v2 = Ok s2 ->
  dumps (PDict [(PStr k1, v1); (PStr k2, v2)])
  = Ok ("{" +:+ ((encode_basestring_ascii k1 +:+ ": " +:+ s1) +:+ ", "
                 +:+ (encode_basestring_ascii k2 +:+ ": " +:+ s2)) +:+ "}").
Proof.
  intros D1 D2. cbn [dumps mapM bind key_text fst snd]. rewrite D1, D2. reflexivity.
Qed.

Lemma dumps_entry (e : DatasetEntry) : dumps (py_of_entry e) = Ok (entry_text e).
Proof.
  unfold py_of_entry, entry_text.
  rewrite (dumps_dict2 _ _ _ _ _ _ (dumps_messages (a e)) (dumps_messages (b e))).
  now rewrite !Str.app_assoc.
Qed.

(** *** Reading a line back *)

Lemma parse_value_space (f : nat) (s : string) :
  parse_value f (String " " s) = parse_value f s.
Proof. destruct f; reflexivity. Qed.

Lemma parse_members_space (f : nat) (s : string) :
  parse_members f (String " " s) = parse_members f s.
Proof. destruct f; reflexivity. Qed.

Lemma parse_value_quote (f : nat) (r : string) :
  parse_value (S f) (String dquote r)
  = match parse_string r with
    | Some (str, rest) => Some (PStr str, rest)
    | None => None
    end.
Proof. reflexivity. Qed.

Lemma parse_value_string (f : nat) (s rest : string) :
  parse_value (S f) (String dquote (escape_all s +:+ String dquote rest)) = Some (PStr s, rest).
Proof. now rewrite parse_value_quote, parse_string_escape_all. Qed.

Lemma parse_value_encoded (f : nat) (s rest : string) :
  parse_value (S f) (encode_basestring_ascii s +:+ rest) = Some (PStr s, rest).
Proof.
  unfold encode_basestring_ascii. rewrite Str.app_cons, Str.app_assoc, Str.app_cons.
  apply parse_value_string.
Qed.

(** A member of an object: the key, the colon, the value, and then
    either the end of the object or a comma and the other members. *)
Lemma parse_members_quote (f : nat) (r : string) :
  parse_members (S f) (String dquote r)
  = match parse_string r with
    | None => None
    | Some (key, rest) =>
        match skip_ws rest with
        | EmptyString => None
        | String c rest1 =>
            if (c =? ":")%char then
              match parse_value f rest1 with
              | None => None
              | Some (v, rest2) =>
                  match skip_ws rest2 with
                  | EmptyString => None
                  | String c' rest3 =>
                      if (c' =? "}")%char then Some ([(key, v)], rest3)
                      else if (c' =? ",")%char then
                        match parse_members f rest3 with
                        | Some (ms, rest') => Some ((key, v) :: ms, rest')
                        | None => None
                        end
                      else None
                  end
              end
            else None
        end
    end.
Proof. reflexivity. Qed.

Lemma parse_member_last (f : nat) (k : string) (v : pyval) (rest1 rest3 : string) :
  parse_value f rest1 = Some (v, String "}" rest3) ->
  parse_members (S f) (encode_basestring_ascii k +:+ String ":" rest1) = Some ([(k, v)], rest3).
Proof.
  intros V. unfold encode_basestring_ascii. rewrite Str.app_cons, Str.app_assoc, Str.app_cons.
  rewrite parse_members_quote, parse_string_escape_all.
  change (skip_ws (EmptyString +:+ String ":" rest1)) with (String ":" rest1).
  change ((":" =? ":")%char) with true. cbv iota. rewrite V. reflexivity.
Qed.

Lemma parse_member_more (f : nat) (k : string) (v : pyval) (rest1 rest3 : string) :
  parse_value f rest1 = Some (v, String "," rest3) ->
  parse_members (S f) (encode_basestring_ascii k +:+ String ":" rest1)
  = match parse_members f rest3 with
    | Some (ms, rest') => Some ((k, v) :: ms, rest')
    | None => None
    end.
Proof.
  intros V. unfold encode_basestring_ascii. rewrite Str.app_cons, Str.app_assoc, Str.app_cons.
  rewrite parse_members_quote, parse_string_escape_all.
  change (skip_ws (EmptyString +:+ String ":" rest1)) with (String ":" rest1).
  change ((":" =? ":")%char) with true. cbv iota. rewrite V. reflexivity.
Qed.

Lemma parse_object (f : nat) (r : string) :
  parse_value (S f) (String "{" (String dquote r))
  = match parse_members f (String dquote r) with
    | Some (ms, rest) => Some (dict_of_members ms, rest)
    | None => None
    end.
Proof. reflexivity. Qed.

Lemma parse_empty_array (f : nat) (rest : string) :
  parse_value (S f) (String "[" (String "]" rest)) = Some (PList [], rest).
Proof. reflexivity. Qed.

Lemma parse_array (f : nat) (r : string) :
  parse_value (S f) (String "[" (String "{" r))
  = match parse_elements f (String "{" r) with
    | Some (l, rest) => Some (PList l, rest)
    | None => None
    end.
Proof. reflexivity. Qed.

Lemma parse_element_last (f : nat) (s : string) (v : pyval) (rest : string) :
  parse_value f s = Some (v, String "]" rest) ->
  parse_elements (S f) s = Some ([v], rest).
Proof. intros V. cbn [parse_elements]. rewrite V. reflexivity. Qed.

Lemma parse_element_more (f : nat) (s : string) (v : pyval) (rest : string) :
  parse_value f s = Some (v, String "," rest) ->
  parse_elements (S f) s
  = match parse_elements f rest with
    | Some (l, rest') => Some (v :: l, rest')
    | None => None
    end.
Proof. intros V. cbn [parse_elements]. rewrite V. reflexivity. Qed.

Lemma parse_elements_space (f : nat) (s : string) :
  parse_elements f (String " " s) = parse_elements f s.
Proof. destruct f as [|f]; [reflexivity|]. cbn [parse_elements]. now rewrite parse_value_space. Qed.

(** The same steps on the text as [json.dumps] lays it out. *)
Lemma parse_object_text (f : nat) (k r : string) :
  parse_value (S f) ("{" +:+ encode_basestring_ascii k +:+ r)
  = match parse_members f (encode_basestring_ascii k +:+ r) with
    | Some (ms, rest) => Some (dict_of_members ms, rest)
    | None => None
    end.
Proof. reflexivity. Qed.

Lemma parse_member_more_text (f : nat) (k text : string) (v : pyval) (rest3 : string) :
  (forall rest, parse_value f (text +:+ rest) = Some (v, rest)) ->
  parse_members (S f) (encode_basestring_ascii k +:+ ": " +:+ text +:+ ", " +:+ rest3)
  = match parse_members f rest3 with
    | Some (ms, rest') => Some ((k, v) :: ms, rest')
    | None => None
    end.
Proof.
  intros V.
  change (encode_basestring_ascii k +:+ ": " +:+ text +:+ ", " +:+ rest3)
    with (encode_basestring_ascii k
            +:+ String ":" (String " " (text +:+ String "," (String " " rest3)))).
  rewrite (parse_member_more f k v _ (String " " rest3)).
  - now rewrite parse_members_space.
  - rewrite parse_value_space. apply V.
Qed.

Lemma parse_member_last_text (f : nat) (k text : string) (v : pyval) (rest : string) :
  (forall rest, parse_value f (text +:+ rest) = Some (v, rest)) ->
  parse_members (S f) (encode_basestring_ascii k +:+ ": " +:+ text +:+ "}" +:+ rest)
  = Some ([(k, v)], rest).
Proof.
  intros V.
  change (encode_basestring_ascii k +:+ ": " +:+ text +:+ "}" +:+ rest)
    with (encode_basestring_ascii k +:+ String ":" (String " " (text +:+ String "}" rest))).
  apply parse_member_last. rewrite parse_value_space. apply V.
Qed.

(** A message is read back with four levels of fuel. *)
Lemma parse_message (m : Message) (f : nat) (rest : string) :
  parse_value (S (S (S (S f)))) (message_text m +:+ rest) = Some (py_of_message m, rest).
Proof.
  unfold message_text. rewrite !Str.app_assoc. rewrite parse_object_text.
  rewrite (parse_member_more_text _ _ _ (PStr (role m)))
    by (intros; apply parse_value_encoded).
  rewrite (parse_member_last_text _ _ _ (PStr (content m)))
    by (intros; apply parse_value_encoded).
  reflexivity.
Qed.

Lemma parse_message_le (m : Message) (f : nat) (rest : string) :
  (4 <= f)%nat -> parse_value f (message_text m +:+ rest) = Some (py_of_message m, rest).
Proof.
  intros L. replace f with (S (S (S (S (f - 4))))) by lia. apply parse_message.
Qed.

(** The messages of a conversation, one level of fuel for each. *)
Lemma parse_message_elements (l : list Message) : forall (m : Message) (f : nat) (rest : string),
  (length l + 4 <= f)%nat ->
  parse_elements (S f) (String.concat ", " (map message_text (m :: l)) +:+ "]" +:+ rest)
  = Some (map py_of_message (m :: l), rest).
Proof.
  induction l as [|m' l IH]; intros m f rest L.
  - cbn [map String.concat].
    apply parse_element_last.
    apply parse_message_le. simpl in L. lia.
  - change (String.concat ", " (map message_text (m :: m' :: l)))
      with (message_text m +:+ ", " +:+ String.concat ", " (map message_text (m' :: l))).
    rewrite !Str.app_assoc.
    rewrite (parse_element_more f _ (py_of_message m)
               (String " " (String.concat ", " (map message_text (m' :: l)) +:+ "]" +:+ rest))).
    + rewrite parse_elements_space.
      destruct f as [|f]; [simpl in L; lia|].
      rewrite IH by (simpl in L; lia). reflexivity.
    + apply (parse_message_le m f). simpl in L. lia.
Qed.

Lemma parse_messages (l : list Message) (f : nat) (rest : string) :
  (length l + 4 <= f)%nat ->
  parse_value (S f) (messages_text l +:+ rest) = Some (PList (map py_of_message l), rest).
Proof.
  intros L. unfold messages_text. rewrite !Str.app_assoc.
  destruct l as [|m l]; [reflexivity|].
  assert (E : forall X,
    parse_value (S f) ("[" +:+ String.concat ", " (map message_text (m :: l)) +:+ X)
    = match parse_elements f (String.concat ", " (map message_text (m :: l)) +:+ X) with
      | Some (l, rest) => Some (PList l, rest)
      | None => None
      end).
  { intros X. destruct l; reflexivity. }
  rewrite E. destruct f as [|f]; [simpl in L; lia|].
  rewrite parse_message_elements by (simpl in L; lia). reflexivity.
Qed.

(** An entry is read back with fuel in proportion to the number of its
    messages. *)
Lemma parse_entry (e : DatasetEntry) (f : nat) (rest : string) :
  (length (a e) + length (b e) + 8 <= f)%nat ->
  parse_value f (entry_text e +:+ rest) = Some (py_of_entry e, rest).
Proof.
  intros L. destruct f as [|[|[|f]]]; try lia.
  unfold entry_text. rewrite !Str.app_assoc. rewrite parse_object_text.
  rewrite (parse_member_more_text _ _ _ (PList (map py_of_message (a e))))
    by (intros; apply parse_messages; lia).
  rewrite (parse_member_last_text _ _ _ (PList (map py_of_message (b e))))
    by (intros; destruct f; [lia | apply parse_messages; lia]).
  reflexivity.
Qed.

Lemma length_message_text (m : Message) : (1 <= String.length (message_text m))%nat.
Proof. unfold message_text. rewrite Str.length_app. simpl. lia. Qed.

Lemma length_concat_messages (l : list Message) :
  (length l <= String.length (String.concat ", " (map message_text l)))%nat.
Proof.
  induction l as [|m l IH]; [simpl; lia|].
  pose proof (length_message_text m).
  destruct l as [|m' l]; [simpl; lia|].
  change (String.concat ", " (map message_text (m :: m' :: l)))
    with (message_text m +:+ ", " +:+ String.concat ", " (map message_text (m' :: l))).
  rewrite !Str.length_app. simpl in *. lia.
Qed.

Lemma length_entry_text (e : DatasetEntry) :
  (length (a e) + length (b e) + 8 <= String.length (entry_text e))%nat.
Proof.
  unfold entry_text, messages_text. repeat rewrite Str.length_app.
  pose proof (length_concat_messages (a e)). pose proof (length_concat_messages (b e)).
  simpl. lia.
Qed.

(** A line written for an entry is read back as the entry. *)
Lemma loads_entry (e : DatasetEntry) : loads (entry_text e) = Ok (py_of_entry e).
Proof.
  unfold loads.
  rewrite <- (Str.app_nil_r (entry_text e)) at 2.
  rewrite parse_entry by apply length_entry_text. reflexivity.
Qed.

End JsonFacts.

(** ** Files *)

Module FsFacts.

Import Fs.








End FsFacts.

(** ** Saving *)

Module SaveFacts.

Import Json Load Line JsonFacts GeneratorFacts.

Lemma printable_app (s t : string) : printable (s +:+ t) = printable s && printable t.
Proof.
  induction s as [|c s IH]; [reflexivity|].
  rewrite Str.app_cons. cbn [printable]. now rewrite IH, andb_assoc.
Qed.

Lemma printable_escape (c : ascii) : printable (escape c) = true.
Proof. destruct c as [[] [] [] [] [] [] [] []]; reflexivity. Qed.

Lemma printable_encoded (s : string) : printable (encode_basestring_ascii s) = true.
Proof.
  unfold encode_basestring_ascii.
  change (printable (String dquote (escape_all s +:+ String dquote EmptyString)))
    with (printable (escape_all s +:+ String dquote EmptyString)).
  rewrite printable_app, andb_true_r.
  induction s as [|c s IH]; [reflexivity|].
  cbn [escape_all]. now rewrite printable_app, printable_escape, IH.
Qed.

Lemma printable_message_text (m : Message) : printable (message_text m) = true.
Proof.
  unfold message_text. now rewrite !printable_app, !printable_encoded.
Qed.

Lemma printable_concat (l : list Message) :
  printable (String.concat ", " (map message_text l)) = true.
Proof.
  induction l as [|m l IH]; [reflexivity|].
  destruct l as [|m' l]; [apply printable_message_text|].
  change (String.concat ", " (map message_text (m :: m' :: l)))
    with (message_text m +:+ ", " +:+ String.concat ", " (map message_text (m' :: l))).
  now rewrite !printable_app, printable_message_text, IH.
Qed.

Lemma printable_messages_text (l : list Message) : printable (messages_text l) = true.
Proof.
  unfold messages_text. now rewrite !printable_app, printable_concat.
Qed.

Lemma printable_entry_text (e : DatasetEntry) : printable (entry_text e) = true.
Proof.
  unfold entry_text.
  now rewrite !printable_app, !printable_encoded, !printable_messages_text.
Qed.

(** A printable line and its newline make one line of a text. *)
Lemma lines_cons (line rest : string) :
  printable line = true -> lines (line +:+ String newline rest) = line :: lines rest.
Proof.
  induction line as [|c line IH]; [reflexivity|].
  cbn [printable]. intros P. apply andb_prop in P as [Pc Pl].
  rewrite Str.app_cons. cbn [lines]. rewrite (IH Pl).
  replace (c =? newline)%char with false; [reflexivity|].
  symmetry. apply Ascii.eqb_neq. intros ->. discriminate.
Qed.

Lemma lines_unlines (ls : list string) :
  Forall (fun line => printable line = true) ls -> lines (unlines ls) = ls.
Proof.
  induction 1 as [|line ls P _ IH]; [reflexivity|].
  cbn [unlines fold_right]. rewrite (lines_cons _ _ P). f_equal. exact IH.
Qed.




(** The loop of [save_prompts] on entries of the data model: the lines
    are appended to what the file holds. *)
Lemma write_prompts_entries (es : list DatasetEntry) : forall (fs : filesystem) (p : path) old,
  fs !! p = Some (File old) ->
  write_prompts fs p (map py_of_entry es)
  = (<[p := File (old +:+ unlines (map entry_text es))]> fs, Ok tt).
Proof.
  induction es as [|e es IH]; intros fs p old F.
  - cbn [map write_prompts unlines fold_right]. rewrite Str.app_nil_r.
    now rewrite insert_id.
  - cbn [map write_prompts]. rewrite dumps_entry. unfold Fs.write. rewrite F.
    rewrite (IH _ p (old +:+ entry_text e +:+ String newline EmptyString))
      by apply lookup_insert_eq.
    rewrite insert_insert_eq. cbn [unlines fold_right].
    do 3 f_equal. rewrite !Str.app_assoc. reflexivity.
Qed.

(** [save_prompts] on entries of the data model, at a path that can be
    written: the file holds the lines of the entries and nothing else. *)
Lemma save_prompts_entries (es : list DatasetEntry) (fs : filesystem) (p : path) :
  Fs.writable fs p ->
  save_prompts fs (map py_of_entry es) p
  = (<[p := File (unlines (map entry_text es))]> fs, Ok tt).
Proof.
  intros W. unfold save_prompts.
  assert (O : Fs.open_w fs p = Ok (<[p := File EmptyString]> fs)).
  { unfold Fs.open_w. destruct W as [[old ->]|[-> ->]]; reflexivity. }
  rewrite O, (write_prompts_entries es _ p EmptyString) by apply lookup_insert_eq.
  now rewrite insert_insert_eq.
Qed.

Lemma entry_lines_printable (es : list DatasetEntry) :
  Forall (fun line => printable line = true) (map entry_text es).
Proof. apply Forall_map, Forall_forall. intros e _. apply printable_entry_text. Qed.

(** The lines of a saved file, read back one by one. *)
Lemma loads_lines (es : list DatasetEntry) :
  mapM loads (map entry_text es) = Ok (map py_of_entry es).
Proof.
  induction es as [|e es IH]; [reflexivity|].
  cbn [map mapM]. now rewrite loads_entry, IH.
Qed.

End SaveFacts.

(** ** The dataset serializer *)

Module SerializerClaims.

Import Json Load Line JsonFacts SaveFacts FsFacts.

(** C4: a sequence of entries of the data model, saved at a path that can
    be written and loaded back from there, is returned as it was, in
    the same order. *)
Theorem load_save_round_trip (fs : filesystem) (es : list DatasetEntry) (p : path) :
  Fs.writable fs p ->
  snd (save_prompts fs (map py_of_entry es) p) = Ok tt
  /\ load (fst (save_prompts fs (map py_of_entry es) p)) p = Ok (map py_of_entry es).
Proof.
  intros W. rewrite (save_prompts_entries es fs p W). cbn [fst snd]. split; [reflexivity|].
  unfold load, Fs.read. rewrite lookup_insert_eq. cbn [bind].
  rewrite (lines_unlines _ (entry_lines_printable es)). apply loads_lines.
Qed.

Section Claims.
Context `{External}.


End Claims.

End SerializerClaims.

Module SerializerRuns.

Import Example.

#[local] Existing Instance Example.env.

Lemma out_path_writable : Fs.writable (disk [be_identity]) out_path.
Proof. right. split; vm_compute; reflexivity. Qed.

Lemma load_save_round_trip_run :
  Fs.writable (disk [be_identity]) out_path
  /\ snd (save_prompts (disk [be_identity]) (map py_of_entry scenario_entries) out_path) = Ok tt
  /\ Load.load
       (fst (save_prompts (disk [be_identity]) (map py_of_entry scenario_entries) out_path))
       out_path
     = Ok (map py_of_entry scenario_entries).
Proof.
  split; [exact out_path_writable|].
  apply (SerializerClaims.load_save_round_trip (disk [be_identity]) scenario_entries out_path).
  exact out_path_writable.
Defined.



(** A name with a slash in it is cut by pathlib: the file is looked for
    in a directory below the one that was made, and the call raises
    once the directory of the datasets is there; nothing is
    registered. *)
Lemma name_with_slash_not_saved :
  Fs.component "a/b" = false
  /\ output_path "a/b" = datasets_dir ++ ["a"; "b.jsonl"]%string
  /\ snd (create_dataset (World (disk [be_identity]) []) init "a/b" "kind" "cruel"
            (Some template_path)) = Raise FileNotFoundError
  /\ files (fst (fst (create_dataset (World (disk [be_identity]) []) init "a/b" "kind" "cruel"
                        (Some template_path)))) !! datasets_dir = Some Dir
  /\ datasets (snd (fst (create_dataset (World (disk [be_identity]) []) init "a/b" "kind"
                           "cruel" (Some template_path)))) !! "a/b" = None.
Proof. repeat split; vm_compute; reflexivity. Qed.

End SerializerRuns.

(** ** The grammar of system templates *)

Module FormatGrammar.

Import Format Template FieldName FormatFacts TemplateFacts.

Lemma bind_Ok {A} (r : result A) : (x <- r ;; Ok x) = r.
Proof. now destruct r. Qed.

Lemma next_literal_prefix (pre s : string) :
  brace_free pre = true ->
  MarkupIterator_next (pre +:+ s)
  = (p <- MarkupIterator_next s ;; Ok (pre +:+ fst (fst p), snd (fst p), snd p)).
Proof.
  induction pre as [|c pre IH]; intros B.
  - rewrite Str.app_nil_l. destruct (MarkupIterator_next s) as [[[lit o] rest]|]; reflexivity.
  - cbn [brace_free] in B. apply andb_prop in B as [Bc Bp]. apply negb_true_iff in Bc.
    rewrite Str.app_cons. cbn [MarkupIterator_next]. rewrite Bc, (IH Bp).
    destruct (MarkupIterator_next s) as [[[lit o] rest]|]; reflexivity.
Qed.

Lemma name_char_inv (c : ascii) :
  name_char c = true ->
  (c =? "{")%char = false /\ (c =? "}")%char = false /\ (c =? "[")%char = false
  /\ (c =? "]")%char = false /\ (c =? ".")%char = false /\ (c =? "!")%char = false
  /\ (c =? ":")%char = false.
Proof.
  unfold name_char.
  destruct (c =? "{")%char, (c =? "}")%char, (c =? "[")%char, (c =? "]")%char,
    (c =? ".")%char, (c =? "!")%char, (c =? ":")%char; cbn; intros; try discriminate;
    repeat split.
Qed.

Lemma scan_name_chars (name : string) (c : ascii) (s : string) :
  name_chars name = true ->
  ((c =? "}")%char || (c =? ":")%char || (c =? "!")%char) = true ->
  scan_field_name false (name +:+ String c s) = (name, Stop c s).
Proof.
  intros N T. induction name as [|d name IH].
  - rewrite Str.app_nil_l. cbn [scan_field_name].
    destruct (c =? "{")%char eqn:E1.
    { apply Ascii.eqb_eq in E1. subst c. discriminate. }
    destruct (c =? "[")%char eqn:E2.
    { apply Ascii.eqb_eq in E2. subst c. discriminate. }
    now rewrite T.
  - cbn [name_chars] in N. apply andb_prop in N as [Nd Nn].
    rewrite Str.app_cons. cbn [scan_field_name].
    destruct (name_char_inv _ Nd) as (E1 & E2 & E3 & E4 & E5 & E6 & E7).
    rewrite E1, E2, E3, E6, E7. cbn [orb]. now rewrite (IH Nn).
Qed.

Lemma split_first_name_chars (name : string) :
  name_chars name = true -> split_first name = (name, EmptyString).
Proof.
  induction name as [|d name IH]; [reflexivity|].
  cbn [name_chars]. intros N. apply andb_prop in N as [Nd Nn].
  cbn [split_first]. destruct (name_char_inv _ Nd) as (E1 & E2 & E3 & E4 & E5 & E6 & E7).
  rewrite E3, E5. cbn [orb]. now rewrite (IH Nn).
Qed.

(** The iterator on a field that is a bare name. *)
Lemma next_bare_field (name s : string) :
  name_chars name = true -> name <> EmptyString ->
  MarkupIterator_next ("{" +:+ name +:+ "}" +:+ s)
  = Ok (EmptyString, Some (Field name None EmptyString), s).
Proof.
  intros N NE. destruct name as [|d name]; [congruence|].
  assert (D : (d =? "{")%char = false).
  { cbn [name_chars] in N. apply andb_prop in N as [Nd _].
    now destruct (name_char_inv _ Nd). }
  change ("{" +:+ String d name +:+ "}" +:+ s)
    with (String "{" (String d (name +:+ String "}" s))).
  cbn [MarkupIterator_next]. change (is_brace "{") with true. cbv iota.
  rewrite Ascii.eqb_sym, D. change (("{" =? "}")%char) with false. cbv iota.
  unfold parse_field.
  change (String d (name +:+ String "}" s)) with (String d name +:+ String "}" s).
  rewrite (scan_name_chars _ "}" s N eq_refl). reflexivity.
Qed.

Section Grammar.
Context `{External}.

Lemma format_prefix (pre s identity : string) :
  brace_free pre = true ->
  format (pre +:+ s) identity = (r <- format s identity ;; Ok (pre +:+ r)).
Proof.
  intros B. destruct pre as [|c pre]; [now rewrite !Str.app_nil_l, bind_Ok|].
  destruct s as [|d s].
  - rewrite Str.app_nil_r, (format_brace_free _ _ B). cbn [format_empty bind].
    rewrite format_empty. cbn [bind]. now rewrite Str.app_nil_r.
  - rewrite format_step by (rewrite Str.app_cons; discriminate).
    rewrite (next_literal_prefix _ _ B), (format_step identity (String d s)) by discriminate.
    destruct (MarkupIterator_next (String d s)) as [[[lit o] rest]|]; cbn [bind fst snd];
      [|reflexivity].
    destruct (match o with Some f => output_markup identity f | None => Ok EmptyString end);
      cbn [bind]; [|reflexivity].
    destruct (format rest identity); cbn [bind]; [|reflexivity].
    now rewrite !Str.app_assoc.
Qed.

(** X1: literal text in front of a template passes through unchanged,
    and whatever the rest of the template gives, error or text,
    follows it. *)
Theorem format_literal_prefix (pre s identity : string) :
  brace_free pre = true ->
  format (pre +:+ s) identity = (r <- format s identity ;; Ok (pre +:+ r)).
Proof. apply format_prefix. Qed.

(** X2: the placeholder is replaced by the trait as it is, whatever
    characters the trait holds, and the rest of the template follows. *)
Theorem format_placeholder (s identity : string) :
  format ("{identity}" +:+ s) identity = (r <- format s identity ;; Ok (identity +:+ r)).
Proof.
  change ("{identity}" +:+ s) with ("{" +:+ "identity" +:+ "}" +:+ s).
  rewrite format_step by discriminate.
  rewrite (next_bare_field "identity" s eq_refl) by discriminate. cbn [bind fst snd].
  change (output_markup identity (Field "identity" None EmptyString)) with (Ok identity).
  cbn [bind]. destruct (format s identity); reflexivity.
Qed.

(** X3: a doubled brace stands for one brace. *)
Theorem format_doubled_brace (s identity : string) :
  format ("{{" +:+ s) identity = (r <- format s identity ;; Ok ("{" +:+ r))
  /\ format ("}}" +:+ s) identity = (r <- format s identity ;; Ok ("}" +:+ r)).
Proof.
  split; rewrite format_step by discriminate.
  - change (MarkupIterator_next ("{{" +:+ s)) with (Ok ("{", @None field, s)).
    cbn [bind fst snd]. destruct (format s identity); reflexivity.
  - change (MarkupIterator_next ("}}" +:+ s)) with (Ok ("}", @None field, s)).
    cbn [bind fst snd]. destruct (format s identity); reflexivity.
Qed.

(** X4: a field on a keyword other than [identity] raises [KeyError] on
    that keyword, whatever follows the field. *)
Theorem format_unknown_keyword (name s identity : string) :
  identifier name = true -> name <> "identity" ->
  format ("{" +:+ name +:+ "}" +:+ s) identity = Raise (KeyError name).
Proof.
  intros I NE. destruct name as [|d name]; [discriminate|].
  cbn [identifier] in I. apply andb_prop in I as [Dg N].
  rewrite format_step by discriminate.
  rewrite (next_bare_field _ s N) by discriminate. cbn [bind fst snd].
  unfold output_markup. cbn [field_name]. rewrite (split_first_name_chars _ N).
  unfold get_integer. cbn [get_integer_from].
  unfold is_digit in Dg. destruct (digit_value d); [discriminate|].
  change (String.eqb (String d name) EmptyString) with false. cbv iota.
  apply String.eqb_neq in NE. now rewrite NE.
Qed.

(** X5: a field that asks for a positional argument, by an empty name
    or by an index, raises [IndexError]: the call passes none. *)
Theorem format_positional (digits s identity : string) (i : Z) :
  name_chars digits = true ->
  digits = EmptyString \/ get_integer digits = Integer i ->
  format ("{" +:+ digits +:+ "}" +:+ s) identity = Raise IndexError.
Proof.
  intros N [->|G].
  - rewrite format_step by discriminate. reflexivity.
  - assert (NE : digits <> EmptyString) by (intros ->; discriminate).
    rewrite format_step by discriminate.
    rewrite (next_bare_field _ s N NE). cbn [bind fst snd].
    unfold output_markup. cbn [field_name]. now rewrite (split_first_name_chars _ N), G.
Qed.

(** X6: after literal text, a closing brace that is not doubled raises
    [ValueError], and so does an opening brace at the very end. *)
Theorem format_single_brace (pre s identity : string) :
  brace_free pre = true ->
  (forall r, s <> String "}" r) ->
  format (pre +:+ "}" +:+ s) identity
  = Raise (ValueError "Single '}' encountered in format string")
  /\ format (pre +:+ "{") identity
     = Raise (ValueError "Single '{' encountered in format string").
Proof.
  intros B NS. split; rewrite (format_prefix _ _ _ B).
  - rewrite format_step by discriminate.
    destruct s as [|c s]; [reflexivity|].
    change ("}" +:+ String c s) with (String "}" (String c s)).
    cbn [MarkupIterator_next]. change (is_brace "}") with true. cbv iota.
    destruct ("}" =? c)%char eqn:E; [|reflexivity].
    apply Ascii.eqb_eq in E. subst c. now destruct (NS s).
  - reflexivity.
Qed.

End Grammar.

End FormatGrammar.

(** ** More on the generator *)

Module GeneratorExtras.

Import Shape GeneratorFacts.

Section Extras.
Context `{External}.

Lemma generate_list a b (ts : list pyval) :
  generate (PList ts) a b = (ess <- mapM (expand_template a b) ts ;; Ok (concat ess)).
Proof. unfold generate. cbn [Py.iter bind]. now rewrite for_templates_mapM. Qed.

Lemma expand_template_Ok a b t es :
  expand_template a b t = Ok es ->
  exists d s x s1 s2 l,
    t = PDict d
    /\ Py.dict_get d "system_template" = Some (PStr s)
    /\ Py.dict_get d "prompts" = Some x
    /\ Format.format s a = Ok s1 /\ Format.format s b = Ok s2
    /\ Py.iter x = Ok l /\ es = map (entry s1 s2) l.
Proof.
  unfold expand_template, Py.getitem.
  destruct t as [| | | | |d]; try discriminate.
  destruct (Py.dict_get d "system_template") as [v|] eqn:S; cbn [bind]; [|discriminate].
  destruct (Py.dict_get d "prompts") as [x|] eqn:P; cbn [bind]; [|discriminate].
  destruct v as [| | |s| |]; try discriminate. cbn [Py.format].
  destruct (Format.format s a) as [s1|] eqn:F1; cbn [bind]; [|discriminate].
  destruct (Format.format s b) as [s2|] eqn:F2; cbn [bind]; [|discriminate].
  destruct (Py.iter x) as [l|] eqn:I; cbn [bind]; [|discriminate].
  intros [= <-]. exists d, s, x, s1, s2, l. repeat split; assumption.
Qed.

(** X7: the entries depend on the two keys of each record only: the keys
    may come in any order and among other keys. *)
Theorem generate_by_lookup a b (vs : list pyval) (ts : list TemplateRecord) :
  Forall2 stands_for vs ts ->
  generate (PList vs) a b = generate (py_of_records ts) a b.
Proof.
  intros F. rewrite generate_list, generate_records.
  assert (E : mapM (expand_template a b) vs = mapM (expand_record a b) ts).
  { induction F as [|v t vs ts (d & -> & S & P) _ IH]; [reflexivity|].
    cbn [mapM]. rewrite IH. f_equal.
    unfold expand_template, expand_record, Py.getitem. rewrite S, P. cbn [bind Py.format].
    destruct (Format.format (system_template t) a); cbn [bind]; [|reflexivity].
    destruct (Format.format (system_template t) b); cbn [bind Py.iter]; [|reflexivity].
    unfold entries_of. now rewrite map_map. }
  now rewrite E.
Qed.

(** X8: a [prompts] value that is a str and not a list is walked
    character by character: the record gives one entry per character. *)
Theorem str_prompts_split a b d s u s1 s2 :
  Py.dict_get d "system_template" = Some (PStr s) ->
  Py.dict_get d "prompts" = Some (PStr u) ->
  Format.format s a = Ok s1 -> Format.format s b = Ok s2 ->
  exists es,
    generate (PList [PDict d]) a b = Ok es
    /\ length es = String.length u
    /\ es = map (fun c => entry s1 s2 (PStr (String c EmptyString))) (list_ascii_of_string u).
Proof.
  intros S P F1 F2. rewrite generate_list. cbn [mapM].
  unfold expand_template, Py.getitem. rewrite S, P. cbn [bind Py.format].
  rewrite F1, F2. cbn [bind Py.iter concat]. rewrite app_nil_r, map_map.
  eexists. split; [reflexivity|]. split; [|reflexivity].
  rewrite length_map. clear. induction u as [|c u IH]; [reflexivity|]. simpl. now rewrite IH.
Qed.

(** X9: the generator returns on a loaded value exactly when the value
    can be iterated over and each of its elements is a mapping with a
    [system_template] str that both traits can be substituted in and
    with [prompts] that can be iterated over. *)
Theorem generate_returns_iff a b (templates : pyval) :
  (exists es, generate templates a b = Ok es)
  <-> exists ts, Py.iter templates = Ok ts /\ Forall (expands a b) ts.
Proof.
  unfold generate. split.
  - intros [es G]. destruct (Py.iter templates) as [ts|]; cbn [bind] in G; [|discriminate].
    exists ts. split; [reflexivity|]. rewrite for_templates_mapM in G.
    destruct (mapM (expand_template a b) ts) as [ess|] eqn:M; [|discriminate].
    apply mapM_Ok in M. clear G. induction M as [|t es_t ts ess E _ IH]; constructor; [|exact IH].
    apply expand_template_Ok in E as (d & s & x & s1 & s2 & l & -> & S & P & F1 & F2 & I & _).
    exists d, s, x. eauto 10.
  - intros (ts & -> & F). cbn [bind]. rewrite for_templates_mapM.
    destruct (mapM_total (expand_template a b) ts) as [ess ->]; [|cbn [bind]; eauto].
    intros t I. rewrite Forall_forall in F. apply list_elem_of_In in I.
    destruct (F t I) as (d & s & x & -> & S & P & [s1 F1] & [s2 F2] & [l L]).
    unfold expand_template, Py.getitem. rewrite S, P. cbn [bind Py.format].
    rewrite F1, F2. cbn [bind]. rewrite L. cbn [bind]. eauto.
Qed.

(** X10: the call raises the error of the first template that cannot be
    expanded; the templates after it are not looked at, and the entries
    of the templates before it are not returned. *)
Theorem generate_first_error a b (pre post : list pyval) (t : pyval) (e : exn) :
  Forall (fun t' => exists es, expand_template a b t' = Ok es) pre ->
  expand_template a b t = Raise e ->
  generate (PList (pre ++ t :: post)) a b = Raise e.
Proof.
  intros F E. rewrite generate_list, mapM_app.
  destruct (mapM_total (expand_template a b) pre) as [ess ->].
  { intros t' I. rewrite Forall_forall in F. apply F. now apply list_elem_of_In. }
  cbn [bind mapM]. now rewrite E.
Qed.

(** X11: the entries of two lists of templates, one after the other,
    are the entries of the first followed by those of the second; an
    error of the first list comes before one of the second. *)
Theorem generate_app a b (ts1 ts2 : list pyval) :
  generate (PList (ts1 ++ ts2)) a b
  = (es1 <- generate (PList ts1) a b ;;
     es2 <- generate (PList ts2) a b ;;
     Ok (es1 ++ es2)).
Proof.
  rewrite !generate_list, mapM_app.
  destruct (mapM (expand_template a b) ts1) as [ess1|]; cbn [bind]; [|reflexivity].
  destruct (mapM (expand_template a b) ts2) as [ess2|]; cbn [bind]; [|reflexivity].
  now rewrite concat_app.
Qed.

Lemma returned_by_templates fs p a b es :
  create_personality_prompts fs p a b = Ok es ->
  exists ts ess,
    es = concat ess /\ Forall2 (fun t es_t => expand_template a b t = Ok es_t) ts ess
    /\ (forall a' b', create_personality_prompts fs p a' b'
                      = (ess' <- mapM (expand_template a' b') ts ;; Ok (concat ess'))).
Proof.
  unfold create_personality_prompts, generate.
  destruct (load_yaml_template fs p) as [templates|]; cbn [bind]; [|discriminate].
  destruct (Py.iter templates) as [ts|]; cbn [bind]; [|discriminate].
  rewrite for_templates_mapM.
  destruct (mapM (expand_template a b) ts) as [ess|] eqn:M; cbn [bind]; [|discriminate].
  intros [= <-]. exists ts, ess. split; [reflexivity|]. split; [now apply mapM_Ok|].
  intros a' b'. now rewrite for_templates_mapM.
Qed.

(** X12: on templates that use [identity] by the bare placeholder
    only, the same trait on both sides makes every entry degenerate: its
    two conversations are the same. *)
Theorem equal_traits_equal_sides fs p a es :
  (forall templates, load_yaml_template fs p = Ok templates -> Shape.bare_templates templates) ->
  create_personality_prompts fs p a a = Ok es ->
  Forall (fun e => exists msgs, Py.getitem e "a" = Ok msgs /\ Py.getitem e "b" = Ok msgs) es.
Proof.
  intros _ G. destruct (returned_by_templates _ _ _ _ _ G) as (ts & ess & -> & F & _).
  clear G. induction F as [|t es_t ts ess E _ IH]; [constructor|].
  cbn [concat]. apply Forall_app. split; [|exact IH].
  apply expand_template_Ok in E as (d & s & x & s1 & s2 & l & _ & _ & _ & F1 & F2 & _ & ->).
  assert (s1 = s2) as <- by congruence.
  apply Forall_map, Forall_forall. intros u _. eexists. split; reflexivity.
Qed.


End Extras.

End GeneratorExtras.

(** ** What [json.dumps] writes, on any value *)

Module DumpsFacts.

Import Json Line SaveFacts GeneratorFacts.

(** Induction on values, through the lists and the dicts. *)
Lemma pyval_nested_ind (P : pyval -> Prop) :
  P PNone -> (forall b, P (PBool b)) -> (forall z, P (PInt z)) -> (forall s, P (PStr s)) ->
  (forall l, Forall P l -> P (PList l)) ->
  (forall d, Forall (fun kx => P (fst kx) /\ P (snd kx)) d -> P (PDict d)) ->
  forall v, P v.
Proof.
  intros HN HB HI HS HL HD. fix IH 1. intros [| b | z | s | l | d].
  - exact HN.
  - apply HB.
  - apply HI.
  - apply HS.
  - apply HL. induction l as [|x l IHl]; constructor; [apply IH | exact IHl].
  - apply HD. induction d as [|[k x] d IHd]; constructor; [split; apply IH | exact IHd].
Qed.

Lemma printable_pretty_N_go (x : N) : forall s,
  printable s = true -> printable (pretty_N_go x s) = true.
Proof.
  induction (N.lt_wf_0 x) as [x _ IH]; intros s Ps.
  assert (x = 0 \/ 0 < x)%N as [->|Hx] by lia; [exact Ps|].
  rewrite pretty_N_go_step by exact Hx. apply IH; [now apply N.div_lt|].
  cbn [printable]. rewrite Ps, andb_true_r.
  unfold pretty_N_char. repeat case_match; reflexivity.
Qed.

Lemma printable_pretty_Z (z : Z) : printable (pretty z) = true.
Proof.
  assert (PN : forall n : N, printable (pretty n) = true).
  { intros n. unfold pretty, pretty_N. case_decide; [reflexivity|].
    now apply printable_pretty_N_go. }
  destruct z as [|p|p]; [reflexivity | apply PN |].
  change (pretty (Z.neg p)) with ("-" +:+ pretty (N.pos p)).
  rewrite printable_app. now rewrite PN.
Qed.

Lemma printable_join (items : list string) :
  Forall (fun s => printable s = true) items -> printable (String.concat ", " items) = true.
Proof.
  induction 1 as [|s items Ps F IH]; [reflexivity|].
  destruct items as [|s' items]; [exact Ps|].
  change (String.concat ", " (s :: s' :: items))
    with (s +:+ ", " +:+ String.concat ", " (s' :: items)).
  now rewrite !printable_app, Ps, IH.
Qed.

Lemma mapM_Forall {A} (f : A -> result string) (P : string -> Prop) (l : list A) items :
  Forall (fun x => forall s, f x = Ok s -> P s) l ->
  mapM f l = Ok items -> Forall P items.
Proof.
  intros F. revert items. induction F as [|x l Hx _ IH]; cbn [mapM]; intros items.
  - intros [= <-]. constructor.
  - destruct (f x) as [s|] eqn:E; cbn [bind]; [|discriminate].
    destruct (mapM f l) as [ss|]; cbn [bind]; [|discriminate].
    intros [= <-]. constructor; auto.
Qed.

Lemma dumps_is_printable (v : pyval) (s : string) :
  dumps v = Ok s -> printable s = true.
Proof.
  revert s. induction v as [| b | z | t | l IH | d IH] using pyval_nested_ind; intros s.
  - intros [= <-]. reflexivity.
  - destruct b; intros [= <-]; reflexivity.
  - intros [= <-]. apply printable_pretty_Z.
  - intros [= <-]. apply printable_encoded.
  - cbn [dumps]. destruct (mapM dumps l) as [items|] eqn:M; cbn [bind]; [|discriminate].
    intros [= <-]. rewrite !printable_app.
    rewrite (printable_join items); [reflexivity|].
    eapply mapM_Forall; [|exact M]. exact IH.
  - cbn [dumps].
    destruct (mapM _ d) as [items|] eqn:M; cbn [bind]; [|discriminate].
    intros [= <-]. rewrite !printable_app.
    rewrite (printable_join items); [reflexivity|].
    eapply mapM_Forall; [|exact M].
    eapply Forall_impl; [exact IH|]. intros [k x] [_ Hx] s. cbn [fst snd].
    destruct (key_text k) as [key|]; cbn [bind]; [|discriminate].
    destruct (dumps x) as [sx|] eqn:Dx; cbn [bind]; [|discriminate].
    intros [= <-]. now rewrite !printable_app, printable_encoded, (Hx sx Dx).
Qed.

(** X14: whatever value [json.dumps] accepts, the text it gives is made
    of printable ASCII characters: there is no newline in it, and
    nothing that UTF-8 would encode in more than one byte. *)
Theorem dumps_printable (v : pyval) (s : string) :
  dumps v = Ok s -> printable s = true.
Proof. apply dumps_is_printable. Qed.

End DumpsFacts.

(** ** More on saving *)

Module SaveExtras.

Import Json Load Line SaveFacts DumpsFacts GeneratorFacts.

Lemma write_prompts_any (prompts : list pyval) : forall (fs : filesystem) (p : path) old ls,
  mapM dumps prompts = Ok ls ->
  fs !! p = Some (File old) ->
  write_prompts fs p prompts = (<[p := File (old +:+ unlines ls)]> fs, Ok tt).
Proof.
  induction prompts as [|v prompts IH]; intros fs p old ls M F.
  - injection M as <-. cbn [write_prompts unlines fold_right].
    now rewrite Str.app_nil_r, insert_id.
  - cbn [mapM] in M. destruct (dumps v) as [line|] eqn:D; cbn [bind] in M; [|discriminate].
    destruct (mapM dumps prompts) as [ls'|] eqn:M'; cbn [bind] in M; [|discriminate].
    injection M as <-. cbn [write_prompts]. rewrite D. unfold Fs.write. rewrite F.
    rewrite (IH _ p (old +:+ line +:+ String newline EmptyString) ls' eq_refl)
      by apply lookup_insert_eq.
    rewrite insert_insert_eq. cbn [unlines fold_right].
    do 3 f_equal. now rewrite !Str.app_assoc.
Qed.

Lemma open_w_writable (fs : filesystem) (p : path) :
  Fs.writable fs p -> Fs.open_w fs p = Ok (<[p := File EmptyString]> fs).
Proof. unfold Fs.open_w. intros [[old ->]|[-> ->]]; reflexivity. Qed.

Lemma mapM_length {A B} (f : A -> result B) (l : list A) (ys : list B) :
  mapM f l = Ok ys -> length ys = length l.
Proof. intros M. apply mapM_Ok, Forall2_length in M. now symmetry. Qed.

Lemma lines_of_dumped (prompts : list pyval) (ls : list string) :
  mapM dumps prompts = Ok ls -> lines (unlines ls) = ls.
Proof.
  intros M. apply lines_unlines. eapply (mapM_Forall dumps); [|exact M].
  apply Forall_forall. intros v _ s. apply dumps_is_printable.
Qed.

Lemma save_prompts_any (fs : filesystem) (prompts : list pyval) (p : path) (ls : list string) :
  Fs.writable fs p ->
  mapM dumps prompts = Ok ls ->
  save_prompts fs prompts p = (<[p := File (unlines ls)]> fs, Ok tt).
Proof.
  intros W M. unfold save_prompts. rewrite (open_w_writable _ _ W).
  rewrite (write_prompts_any prompts _ p EmptyString ls M) by apply lookup_insert_eq.
  now rewrite insert_insert_eq.
Qed.

(** X16: whatever the prompts are, if [json.dumps] accepts them all,
    [save_prompts] leaves a file of exactly one line per prompt, the
    lines being the dumped prompts in order, and nothing of what the
    file held before. *)
Theorem save_any_prompts (fs : filesystem) (prompts : list pyval) (p : path) (ls : list string) :
  Fs.writable fs p ->
  mapM dumps prompts = Ok ls ->
  save_prompts fs prompts p = (<[p := File (unlines ls)]> fs, Ok tt)
  /\ lines (unlines ls) = ls
  /\ length (lines (unlines ls)) = length prompts.
Proof.
  intros W M. pose proof (lines_of_dumped _ _ M) as L.
  split; [now apply save_prompts_any|].
  split; [exact L | rewrite L; now apply mapM_length in M].
Qed.


(** X18: the last writer wins: saving at a path where prompts were saved
    before leaves the same disk as saving there at once. *)
Theorem save_last_writer_wins (fs : filesystem) (first second : list pyval) (p : path)
  (ls1 ls2 : list string) :
  Fs.writable fs p ->
  mapM dumps first = Ok ls1 -> mapM dumps second = Ok ls2 ->
  save_prompts (fst (save_prompts fs first p)) second p = save_prompts fs second p.
Proof.
  intros W M1 M2.
  rewrite (save_prompts_any fs first p ls1 W M1). cbn [fst].
  rewrite (save_prompts_any fs second p ls2 W M2).
  assert (W' : Fs.writable (<[p := File (unlines ls1)]> fs) p).
  { left. eexists. apply lookup_insert_eq. }
  rewrite (save_prompts_any _ second p ls2 W' M2).
  now rewrite insert_insert_eq.
Qed.

End SaveExtras.

(** ** Directories, the [dataset] command and the session *)

Module SessionExtras.

Import Fs FsFacts Cli Grow.

Lemma only_adds_same (fs : filesystem) (p : path) : fs !! p = Some Dir -> only_adds fs fs p.
Proof. intros D. split; auto. Qed.

Lemma only_adds_insert (fs : filesystem) (p : path) :
  fs !! p = None -> only_adds fs (<[p := Dir]> fs) p.
Proof.
  intros P. split; [apply lookup_insert_eq|].
  intros q. destruct (decide (p = q)) as [<-|NE].
  - right. split; [exact P | apply lookup_insert_eq].
  - left. now apply lookup_insert_ne.
Qed.

(** [mkdir] only adds directories, and the path is one of them when it
    returns. *)
Lemma mkdir_adds (n : nat) : forall (parents : bool) (fs : filesystem) (p : path) fs',
  mkdir n parents fs p = Ok fs' -> only_adds fs fs' p.
Proof.
  induction n as [|n IH]; intros parents fs p fs'; cbn [mkdir]; unfold os_mkdir, is_dir, absent;
    destruct (fs !! p) as [[|t]|] eqn:P;
    try destruct (fs !! parent p) as [[|t']|] eqn:Q;
    try destruct (through_file fs p);
    try discriminate;
    try (intros [= <-]; (now apply only_adds_same) || (now apply only_adds_insert)).
  destruct p as [|c p']; [discriminate|]. destruct parents; [|discriminate].
  destruct (mkdir n true fs (parent (c :: p'))) as [fs1|] eqn:M1; cbn [bind]; [|discriminate].
  intros M2. apply IH in M1 as [_ A1]. apply IH in M2 as [D A2].
  split; [exact D|]. intros q.
  destruct (A2 q) as [E2|[N2 D2]], (A1 q) as [E1|[N1 D1]].
  - left. congruence.
  - right. split; congruence.
  - right. split; congruence.
  - congruence.
Qed.

Lemma mkdir_again (fs : filesystem) (p : path) (n : nat) (parents : bool) :
  fs !! p = Some Dir -> mkdir n parents fs p = Ok fs.
Proof. intros D. destruct n; cbn [mkdir]; unfold os_mkdir, is_dir; now rewrite D. Qed.

(** X19: when [mkdir(parents=True, exist_ok=True)] returns, the path is
    a directory, every path that existed is as it was, every new path is
    a directory, and a second call changes nothing. *)
Theorem mkdir_parents_adds (fs fs' : filesystem) (p : path) :
  mkdir_parents fs p = Ok fs' ->
  fs' !! p = Some Dir
  /\ (forall q, fs' !! q = fs !! q \/ (fs !! q = None /\ fs' !! q = Some Dir))
  /\ mkdir_parents fs' p = Ok fs'.
Proof.
  intros M. destruct (mkdir_adds _ _ _ _ _ M) as [D A].
  split; [exact D|]. split; [exact A|]. now apply mkdir_again.
Qed.

Section Session.
Context `{External}.



(** X21: when the generator raises on a template path that exists, the
    [dataset] command raises the same error but has made the directory
    all the same, and [create_dataset] has touched nothing. *)
Theorem dataset_makes_directory_first (w : world) (self : palinorShell)
  (name a_trait b_trait : string) (template_path : path) (fs1 : filesystem) (e : exn) :
  is_Some (files w !! template_path) ->
  mkdir_parents (files w) datasets_dir = Ok fs1 ->
  create_personality_prompts (files w) template_path a_trait b_trait = Raise e ->
  dataset w name a_trait b_trait (Some template_path) = (World fs1 (console w), Raise e)
  /\ fs1 !! datasets_dir = Some Dir
  /\ create_dataset w self name a_trait b_trait (Some template_path) = (w, self, Raise e).
Proof.
  intros [x X] M C. destruct (mkdir_adds _ _ _ _ _ M) as [D A].
  split; [|split; [exact D|]].
  - unfold dataset. rewrite M.
    replace (create_personality_prompts fs1 template_path a_trait b_trait)
      with (create_personality_prompts (files w) template_path a_trait b_trait);
      [now rewrite C|].
    unfold create_personality_prompts, load_yaml_template, Fs.read.
    destruct (A template_path) as [->|[N _]]; [now rewrite X | congruence].
  - unfold create_dataset. now rewrite C.
Qed.



End Session.

End SessionExtras.

(** ** Concrete runs of the further properties *)

Module ExtraRuns.

Import Example.

#[local] Existing Instance Example.env.

Lemma format_literal_prefix_run :
  Template.brace_free "Be " = true
  /\ Format.format ("Be " +:+ "{identity}.") "kind"
     = (r <- Format.format "{identity}." "kind" ;; Ok ("Be " +:+ r)).
Proof.
  split; [reflexivity|].
  apply (FormatGrammar.format_literal_prefix "Be " "{identity}." "kind"). reflexivity.
Defined.

Lemma format_unknown_keyword_run :
  FieldName.identifier "foo" = true
  /\ "foo" <> "identity"
  /\ Format.format ("{" +:+ "foo" +:+ "}" +:+ ".") "kind" = Raise (KeyError "foo").
Proof.
  split; [reflexivity|]. split; [discriminate|].
  apply (FormatGrammar.format_unknown_keyword "foo" "." "kind"); [reflexivity | discriminate].
Defined.

Lemma format_positional_run :
  FieldName.name_chars "0" = true
  /\ Format.get_integer "0" = Format.Integer 0
  /\ Format.format ("{" +:+ "0" +:+ "}" +:+ ".") "kind" = Raise IndexError.
Proof.
  split; [reflexivity|]. split; [reflexivity|].
  apply (FormatGrammar.format_positional "0" "." "kind" 0); [reflexivity | right; reflexivity].
Defined.

Lemma format_single_brace_run :
  Template.brace_free "Be " = true
  /\ (forall r, "." <> String "}" r)
  /\ Format.format ("Be " +:+ "}" +:+ ".") "kind"
     = Raise (ValueError "Single '}' encountered in format string")
  /\ Format.format ("Be " +:+ "{") "kind"
     = Raise (ValueError "Single '{' encountered in format string").
Proof.
  split; [reflexivity|]. split; [discriminate|].
  apply (FormatGrammar.format_single_brace "Be " "." "kind"); [reflexivity | discriminate].
Defined.

Lemma generate_by_lookup_run :
  Forall2 Shape.stands_for
    [PDict [(PStr "note", PNone);
            (PStr "prompts", PList [PStr "Hi"; PStr "Tell me a joke"]);
            (PStr "system_template", PStr "Be {identity}.")]]
    [be_identity]
  /\ generate
       (PList [PDict [(PStr "note", PNone);
                      (PStr "prompts", PList [PStr "Hi"; PStr "Tell me a joke"]);
                      (PStr "system_template", PStr "Be {identity}.")]])
       "kind" "cruel"
     = generate (py_of_records [be_identity]) "kind" "cruel".
Proof.
  assert (F : Forall2 Shape.stands_for
                [PDict [(PStr "note", PNone);
                        (PStr "prompts", PList [PStr "Hi"; PStr "Tell me a joke"]);
                        (PStr "system_template", PStr "Be {identity}.")]]
                [be_identity]).
  { constructor; [|constructor]. eexists. split; [reflexivity|]. split; reflexivity. }
  split; [exact F|].
  apply (GeneratorExtras.generate_by_lookup "kind" "cruel" _ [be_identity] F).
Defined.

Lemma str_prompts_split_run :
  Py.dict_get [(PStr "system_template", PStr "Be {identity}."); (PStr "prompts", PStr "Hi")]
    "system_template" = Some (PStr "Be {identity}.")
  /\ Py.dict_get [(PStr "system_template", PStr "Be {identity}."); (PStr "prompts", PStr "Hi")]
       "prompts" = Some (PStr "Hi")
  /\ Format.format "Be {identity}." "kind" = Ok "Be kind."
  /\ Format.format "Be {identity}." "cruel" = Ok "Be cruel."
  /\ exists es,
       generate
         (PList [PDict [(PStr "system_template", PStr "Be {identity}.");
                        (PStr "prompts", PStr "Hi")]]) "kind" "cruel" = Ok es
       /\ length es = String.length "Hi"
       /\ es = map (fun c => entry "Be kind." "Be cruel." (PStr (String c EmptyString)))
                 (list_ascii_of_string "Hi").
Proof.
  split; [reflexivity|]. split; [reflexivity|].
  split; [vm_compute; reflexivity|]. split; [vm_compute; reflexivity|].
  apply (GeneratorExtras.str_prompts_split "kind" "cruel"
           [(PStr "system_template", PStr "Be {identity}."); (PStr "prompts", PStr "Hi")]
           "Be {identity}." "Hi" "Be kind." "Be cruel.");
    vm_compute; reflexivity.
Defined.

Lemma generate_first_error_run :
  Forall (fun t' => exists es, expand_template "kind" "cruel" t' = Ok es)
    [py_of_record be_identity]
  /\ expand_template "kind" "cruel" (py_of_record be_foo) = Raise (KeyError "foo")
  /\ generate (PList ([py_of_record be_identity] ++ py_of_record be_foo :: [PInt 0]))
       "kind" "cruel" = Raise (KeyError "foo").
Proof.
  assert (F : Forall (fun t' => exists es, expand_template "kind" "cruel" t' = Ok es)
                [py_of_record be_identity]).
  { constructor; [|constructor]. eexists. vm_compute. reflexivity. }
  split; [exact F|]. split; [vm_compute; reflexivity|].
  apply (GeneratorExtras.generate_first_error "kind" "cruel"
           [py_of_record be_identity] [PInt 0] (py_of_record be_foo) (KeyError "foo") F).
  vm_compute; reflexivity.
Defined.

Lemma equal_traits_equal_sides_run :
  (forall templates,
     load_yaml_template (disk [be_identity]) template_path = Ok templates ->
     Shape.bare_templates templates)
  /\ create_personality_prompts (disk [be_identity]) template_path "kind" "kind"
     = Ok [entry "Be kind." "Be kind." (PStr "Hi");
           entry "Be kind." "Be kind." (PStr "Tell me a joke")]
  /\ Forall (fun e => exists msgs, Py.getitem e "a" = Ok msgs /\ Py.getitem e "b" = Ok msgs)
       [entry "Be kind." "Be kind." (PStr "Hi");
        entry "Be kind." "Be kind." (PStr "Tell me a joke")].
Proof.
  assert (B : forall templates,
             load_yaml_template (disk [be_identity]) template_path = Ok templates ->
             Shape.bare_templates templates).
  { intros templates L. vm_compute in L. injection L as <-.
    exact Runs.bare_templates_be_identity. }
  split; [exact B|]. split; [vm_compute; reflexivity|].
  apply (GeneratorExtras.equal_traits_equal_sides (disk [be_identity]) template_path "kind" _ B).
  vm_compute; reflexivity.
Defined.


Lemma dumps_printable_run :
  Json.dumps (PList [PInt 1; PBool true; PNone]) = Ok "[1, true, null]"
  /\ Line.printable "[1, true, null]" = true.
Proof.
  split; [vm_compute; reflexivity|].
  apply (DumpsFacts.dumps_printable (PList [PInt 1; PBool true; PNone])).
  vm_compute; reflexivity.
Defined.

Lemma save_any_prompts_run :
  Fs.writable (disk [be_identity]) out_path
  /\ mapM Json.dumps [PInt 1; PList [PNone]] = Ok ["1"; "[null]"]%string
  /\ save_prompts (disk [be_identity]) [PInt 1; PList [PNone]] out_path
     = (<[out_path := File (Line.unlines ["1"; "[null]"]%string)]> (disk [be_identity]), Ok tt)
  /\ Load.lines (Line.unlines ["1"; "[null]"]%string) = ["1"; "[null]"]%string
  /\ length (Load.lines (Line.unlines ["1"; "[null]"]%string))
     = length [PInt 1; PList [PNone]].
Proof.
  split; [exact SerializerRuns.out_path_writable|]. split; [vm_compute; reflexivity|].
  apply (SaveExtras.save_any_prompts (disk [be_identity]) [PInt 1; PList [PNone]] out_path).
  - exact SerializerRuns.out_path_writable.
  - vm_compute; reflexivity.
Defined.



Lemma save_last_writer_wins_run :
  Fs.writable (disk [be_identity]) out_path
  /\ mapM Json.dumps [PInt 1] = Ok ["1"]%string
  /\ mapM Json.dumps scenario = Ok (map Line.entry_text scenario_entries)
  /\ save_prompts (fst (save_prompts (disk [be_identity]) [PInt 1] out_path)) scenario out_path
     = save_prompts (disk [be_identity]) scenario out_path.
Proof.
  split; [exact SerializerRuns.out_path_writable|]. split; [vm_compute; reflexivity|].
  split; [vm_compute; reflexivity|].
  apply (SaveExtras.save_last_writer_wins (disk [be_identity]) [PInt 1] scenario out_path
           ["1"]%string (map Line.entry_text scenario_entries)).
  - exact SerializerRuns.out_path_writable.
  - vm_compute; reflexivity.
  - vm_compute; reflexivity.
Defined.

Lemma mkdir_parents_adds_run :
  Fs.mkdir_parents (disk [be_identity]) datasets_dir = Ok with_datasets_dir
  /\ with_datasets_dir !! datasets_dir = Some Dir
  /\ (forall q, with_datasets_dir !! q = disk [be_identity] !! q
                \/ (disk [be_identity] !! q = None /\ with_datasets_dir !! q = Some Dir))
  /\ Fs.mkdir_parents with_datasets_dir datasets_dir = Ok with_datasets_dir.
Proof.
  split; [vm_compute; reflexivity|].
  apply (SessionExtras.mkdir_parents_adds (disk [be_identity]) with_datasets_dir datasets_dir).
  vm_compute; reflexivity.
Defined.

Lemma dataset_makes_directory_first_run :
  is_Some (disk [be_foo] !! template_path)
  /\ Fs.mkdir_parents (disk [be_foo]) datasets_dir = Ok foo_with_datasets_dir
  /\ create_personality_prompts (disk [be_foo]) template_path "kind" "cruel"
     = Raise (KeyError "foo")
  /\ Cli.dataset (World (disk [be_foo]) []) "x" "kind" "cruel" (Some template_path)
     = (World foo_with_datasets_dir [], Raise (KeyError "foo"))
  /\ foo_with_datasets_dir !! datasets_dir = Some Dir
  /\ create_dataset (World (disk [be_foo]) []) init "x" "kind" "cruel" (Some template_path)
     = (World (disk [be_foo]) [], init, Raise (KeyError "foo")).
Proof.
  assert (S : is_Some (disk [be_foo] !! template_path)) by (eexists; vm_compute; reflexivity).
  split; [exact S|]. split; [vm_compute; reflexivity|]. split; [vm_compute; reflexivity|].
  apply (SessionExtras.dataset_makes_directory_first
           (World (disk [be_foo]) []) init "x" "kind" "cruel" template_path
           foo_with_datasets_dir (KeyError "foo") S).
  - vm_compute; reflexivity.
  - vm_compute; reflexivity.
Defined.


End ExtraRuns.
